(** * Verification of the paginated archival fetch loop

    A shallow embedding of [reddit_scraper/download_subreddit_data.py]:
    [DownloadStats] with [format_progress], [ArchiveStream] ([start],
    [_run], [_fetch_data]), [CombinedArchiveStream.start], [validate_name],
    [number_to_short] and [main].

    Conventions of the embedding.
    - Python [int] is [Z]; the two counters that only ever go
      [0, +1, +len(data)] are [nat].
    - Python [str] is [string]; one [ascii] stands for one character.
    - A parsed JSON document is a [json] tree.  JSON numbers are the
      integers (the archival API reports whole epoch seconds); a [dict] is an
      association list in insertion order, which is the order [json.dumps]
      prints.
    - [_fetch_data] is annotated [List[Dict]]: the [data] member of an
      answer is a list of items, and an item is a [dict] whose
      [created_utc], when it has one, is an integer.
    - The network is a script: the list of outcomes of the successive
      [requests.get] calls.  It doubles as fuel for the unbounded [while]
      loop: when the script is used up the loop is still waiting.  A
      [KeyboardInterrupt] arrives as the outcome of a request.
    - [print], [time.sleep] and [requests.get] are recorded in a trace of
      [effect]s; the file system is explicit state.
    - [datetime.fromtimestamp] raises for a date it cannot represent, and
      the loop handles that like a failed fetch.  [open], [os.makedirs],
      [write], [flush] and [print] are taken to succeed: the model covers
      the runs in which the file system accepts the directory and the
      sinks, and says nothing of the others.
    - [0.5 * n**2] is a rational: the product is exact in binary floating
      point for every counter the loop can reach. *)

From Stdlib Require Import ZArith QArith List String Ascii Bool Arith Lia.
From Stdlib Require Import Decimal DecimalString.
From Stdlib Require DecimalPos DecimalZ.
Import ListNotations.

Set Warnings "-register-all".

Local Close Scope Q_scope.
Local Open Scope list_scope.
Local Open Scope string_scope.

(** ** Characters and strings *)

Definition newline : ascii := ascii_of_nat 10.
Definition dquote : ascii := ascii_of_nat 34.
Definition backslash : ascii := ascii_of_nat 92.

Definition str1 (c : ascii) : string := String c EmptyString.

(** [str(n)] for an [int]. *)
Definition str_of_Z (n : Z) : string := NilZero.string_of_int (Z.to_int n).

(** Number of occurrences of a character; with [newline] it counts the
    line terminators of a file. *)
Fixpoint count_char (c : ascii) (s : string) : nat :=
  match s with
  | EmptyString => 0
  | String a s' => (if Ascii.eqb a c then 1 else 0) + count_char c s'
  end.

Fixpoint join (sep : string) (l : list string) : string :=
  match l with
  | [] => EmptyString
  | x :: l' =>
      match l' with
      | [] => x
      | _ :: _ => x ++ sep ++ join sep l'
      end
  end.

(** ** JSON values *)

Inductive json : Type :=
| JNull
| JBool (b : bool)
| JInt (n : Z)
| JStr (s : string)
| JArr (l : list json)
| JObj (o : list (string * json)).

Definition Dict : Type := list (string * json).

(** [d.get(k)]: [None] when the key is absent. *)
Fixpoint dict_get (k : string) (d : Dict) : option json :=
  match d with
  | [] => None
  | (k', v) :: d' => if String.eqb k' k then Some v else dict_get k d'
  end.

(** Truth value of a parsed JSON value, as [if v:] tests it. *)
Definition truthy (v : json) : bool :=
  match v with
  | JNull => false
  | JBool b => b
  | JInt n => negb (n =? 0)%Z
  | JStr s => negb (String.eqb s EmptyString)
  | JArr l => match l with [] => false | _ :: _ => true end
  | JObj o => match o with [] => false | _ :: _ => true end
  end.

(** *** [json.dumps] with its defaults ([ensure_ascii=True], separators
    [", "] and [": "]) *)

Definition hex_digit (n : nat) : ascii :=
  nth n (list_ascii_of_string "0123456789abcdef") "0"%char.

Definition escape_char (c : ascii) : string :=
  let n := nat_of_ascii c in
  if (n =? 34)%nat then String backslash (str1 dquote)
  else if (n =? 92)%nat then String backslash (str1 backslash)
  else if (n =? 10)%nat then String backslash "n"
  else if (n =? 13)%nat then String backslash "r"
  else if (n =? 9)%nat then String backslash "t"
  else if (n =? 8)%nat then String backslash "b"
  else if (n =? 12)%nat then String backslash "f"
  else if ((32 <=? n) && (n <=? 126))%nat then str1 c
  else String backslash
         ("u00" ++ String (hex_digit (n / 16)) (str1 (hex_digit (n mod 16)))).

Fixpoint escape (s : string) : string :=
  match s with
  | EmptyString => EmptyString
  | String c s' => escape_char c ++ escape s'
  end.

Definition quote (s : string) : string :=
  String dquote (escape s ++ str1 dquote).

Fixpoint dumps (v : json) : string :=
  match v with
  | JNull => "null"
  | JBool b => if b then "true" else "false"
  | JInt n => str_of_Z n
  | JStr s => quote s
  | JArr l => "[" ++ join ", " (map dumps l) ++ "]"
  | JObj o =>
      "{" ++ join ", " (map (fun kv : string * json => let '(k, x) := kv in
                                       quote k ++ ": " ++ dumps x) o) ++ "}"
  end.

(** ** Exceptions *)

(** What an [Exception(...)] raised by this module reports. *)
Inductive failure : Type :=
| StatusCode (code : Z) (text : option string)
    (* f"API returned status code {code}: {text}"; [validate_name] leaves
       the text out *)
| ApiReported (err : json)
    (* f"API returned error: {data['error']}" *)
| NoSuchName (kind : string).
    (* f"No {download_type.value} with that name found" *)

Inductive exn : Type :=
| Exception (what : failure)
| ValueError (msg : string)
| JSONDecodeError          (* [response.json()] on a body that is not JSON *)
| RequestException         (* [requests.get] could not complete *)
| AttributeError
| IndexError
| KeyboardInterrupt.

(** [except Exception] catches everything but [KeyboardInterrupt], which
    derives from [BaseException] only. *)
Definition is_Exception (e : exn) : bool :=
  match e with
  | KeyboardInterrupt => false
  | _ => true
  end.

Inductive result (A : Type) : Type :=
| Ok (a : A)
| Raise (e : exn).

Arguments Ok {A} a.
Arguments Raise {A} e.

(** ** The network *)

(** The parsed body of an API answer, seen through the two keys the code
    reads.  [D] is the type of the [data] member: a page of items for the
    search end points, a date for [/api/utils/min]. *)
Record Body (D : Type) : Type := mkBody {
  error : option json;
  data : option D
}.

Arguments mkBody {D} error data.
Arguments error {D} b.
Arguments data {D} b.

Record Response (D : Type) : Type := mkResponse {
  status_code : Z;
  text : string;
  json_body : option (Body D)     (* [None]: [response.json()] raises *)
}.

Arguments mkResponse {D} status_code text json_body.
Arguments status_code {D} r.
Arguments text {D} r.
Arguments json_body {D} r.

(** Outcome of one [requests.get]. *)
Inductive net_event (D : Type) : Type :=
| Answer (r : Response D)
| Fails (e : exn).

Arguments Answer {D} r.
Arguments Fails {D} e.

(** ** Items *)

(** An item is a [dict] whose [created_utc], when present, is an integer. *)
Definition created_utc_ok (d : Dict) : bool :=
  match dict_get "created_utc" d with
  | None => true
  | Some (JInt _) => true
  | Some _ => false
  end.

Record Item : Type := mkItem {
  fields : Dict;
  created_utc_int : created_utc_ok fields = true
}.

(** [item.get("created_utc", 0) * 1000] *)
Definition created_utc_ms (it : Item) : Z :=
  match dict_get "created_utc" (fields it) with
  | Some (JInt n) => n * 1000
  | _ => 0 * 1000
  end.

(** [json.dumps(item) + "\n"] *)
Definition line (it : Item) : string :=
  dumps (JObj (fields it)) ++ str1 newline.

Fixpoint lines (page : list Item) : string :=
  match page with
  | [] => EmptyString
  | it :: page' => line it ++ lines page'
  end.

(** ** Files *)

Inductive mode : Type :=
| ModeW      (* "w" *)
| ModeA.     (* "a" *)

(** The file system maps a path to the bytes on disk. *)
Definition fs : Type := string -> option string.

Definition contents (disk : fs) (p : string) : string :=
  match disk p with
  | Some c => c
  | None => EmptyString
  end.

Definition fs_set (disk : fs) (p c : string) : fs :=
  fun q => if String.eqb q p then Some c else disk q.

(** An open text file: what was written since the last flush is still in
    the buffer. *)
Record handle : Type := mkHandle {
  path : string;
  buffer : string
}.

(** [open(p, m)] on a file system that accepts the path: mode [w] creates
    or empties the file, mode [a] creates it or leaves it as it is.  An
    [open] the file system refuses ([OSError]) is outside the model. *)
Definition open_ (disk : fs) (p : string) (m : mode) : fs * handle :=
  (fs_set disk p (match m with
                  | ModeW => EmptyString
                  | ModeA => contents disk p
                  end),
   mkHandle p EmptyString).

Definition write (h : handle) (s : string) : handle :=
  mkHandle (path h) (buffer h ++ s).

Definition flush (disk : fs) (h : handle) : fs * handle :=
  (fs_set disk (path h) (contents disk (path h) ++ buffer h),
   mkHandle (path h) EmptyString).

(** Leaving the [with] block closes the file, which flushes it. *)
Definition close (disk : fs) (h : handle) : fs := fst (flush disk h).

(** [for item in data: file_handle.write(json.dumps(item) + "\n")] *)
Fixpoint write_items (h : handle) (page : list Item) : handle :=
  match page with
  | [] => h
  | it :: page' => write_items (write h (line it)) page'
  end.

(** ** Download types *)

Inductive DownloadType : Type :=
| SUBREDDIT
| USER.

Definition value (t : DownloadType) : string :=
  match t with
  | SUBREDDIT => "subreddit"
  | USER => "author"
  end.

Definition API_URL : string := "https://arctic-shift.photon-reddit.com".

(** ** Statistics of one stream *)

Module DownloadStats.

Record t : Type := mk {
  total_items : nat;
  start_time : Q;
  running_time : Q;
  current_date : option Z;     (* the datetime of this many milliseconds *)
  repeated_error_count : nat;
  is_paused : bool;
  is_done : bool;
  has_error : bool
}.

(** [DownloadStats()] *)
Definition init : t := mk 0 0 0 None 0 false false false.

Definition set_total_items (s : t) (n : nat) : t :=
  mk n (start_time s) (running_time s) (current_date s)
     (repeated_error_count s) (is_paused s) (is_done s) (has_error s).

Definition set_start_time (s : t) (q : Q) : t :=
  mk (total_items s) q (running_time s) (current_date s)
     (repeated_error_count s) (is_paused s) (is_done s) (has_error s).

Definition set_current_date (s : t) (d : option Z) : t :=
  mk (total_items s) (start_time s) (running_time s) d
     (repeated_error_count s) (is_paused s) (is_done s) (has_error s).

Definition set_repeated_error_count (s : t) (n : nat) : t :=
  mk (total_items s) (start_time s) (running_time s) (current_date s)
     n (is_paused s) (is_done s) (has_error s).

Definition set_is_paused (s : t) (b : bool) : t :=
  mk (total_items s) (start_time s) (running_time s) (current_date s)
     (repeated_error_count s) b (is_done s) (has_error s).

Definition set_is_done (s : t) (b : bool) : t :=
  mk (total_items s) (start_time s) (running_time s) (current_date s)
     (repeated_error_count s) (is_paused s) b (has_error s).

Definition set_has_error (s : t) (b : bool) : t :=
  mk (total_items s) (start_time s) (running_time s) (current_date s)
     (repeated_error_count s) (is_paused s) (is_done s) b.

End DownloadStats.

(** ** Effects *)

Inductive effect : Type :=
| Get (url : string)                        (* requests.get(url) *)
| Sleep (seconds : nat)                     (* time.sleep(seconds) *)
| PrintComplete (item_type : string)        (* "... download complete!" *)
| PrintProgress (st : DownloadStats.t)      (* stats.format_progress() *)
| PrintError (e : exn)                      (* "Error: ..." *)
| PrintAborted (item_type : string)         (* "Too many repeated errors..." *)
| PrintRetrying (seconds : nat)             (* "Retrying in ... seconds..." *)
| PrintInterrupted (item_type : string)     (* "... download interrupted." *)
| PrintStartingPosts
| PrintStartingComments
| PrintAllComplete.

(** How a call ended: it returned, an exception left it, or it is still
    inside its loop with the script of network outcomes used up. *)
Inductive ending : Type :=
| Returned
| Propagated (e : exn)
| Awaiting.

(** The backoff test [0.5 * n**2 > 60]. *)
Definition penalty (n : nat) : Q := ((1 # 2) * inject_Z (Z.of_nat n ^ 2))%Q.

Definition Qgtb (a b : Q) : bool := negb (Qle_bool a b).

(** Whether [datetime.datetime.fromtimestamp(ms / 1000)] returns: the date
    must lie in the years 1 to 9999, and not in the first day of year 1
    (the day before is probed for a repeated hour).  The bounds are those
    of CPython 3 with a UTC clock; otherwise the call raises [ValueError]
    (or, further out, [OverflowError] or [OSError]: all of them are
    [Exception]s and only the text printed differs). *)
Definition fromtimestamp_ok (ms : Z) : bool :=
  ((-62135510400000 <=? ms) && (ms <=? 253402300799999))%Z.

(** ** One stream *)

Module ArchiveStream.

Record t : Type := mk {
  url : string;
  start_date : Z;
  current_date : Z;
  output_file : string;
  item_type : string;
  append : bool;
  stats : DownloadStats.t
}.

(** [ArchiveStream(url, start_date, output_file, item_type, append)] *)
Definition init (url : string) (start_date : Z) (output_file item_type : string)
  (append : bool) : t :=
  mk url start_date start_date output_file item_type append DownloadStats.init.

Definition set_current_date (self : t) (d : Z) : t :=
  mk (url self) (start_date self) d (output_file self) (item_type self)
     (append self) (stats self).

Definition set_stats (self : t) (st : DownloadStats.t) : t :=
  mk (url self) (start_date self) (current_date self) (output_file self)
     (item_type self) (append self) st.

(** The address [_fetch_data] asks for. *)
Definition fetch_url (self : t) : string :=
  url self ++ "&limit=auto&sort=asc&after=" ++ str_of_Z (current_date self)
  ++ "&meta-app=download-tool-cli".

(** [_fetch_data], given the outcome of its [requests.get]. *)
Definition _fetch_data (self : t) (ev : net_event (list Item))
  : list effect * result (list Item) :=
  ([Get (fetch_url self)],
   match ev with
   | Fails e => Raise e
   | Answer response =>
       if negb (status_code response =? 200)%Z
       then Raise (Exception (StatusCode (status_code response)
                                 (Some (text response))))
       else
         match json_body response with
         | None => Raise JSONDecodeError
         | Some body =>
             match error body with
             | Some err =>
                 if truthy err then Raise (Exception (ApiReported err))
                 else Ok (match data body with Some d => d | None => [] end)
             | None => Ok (match data body with Some d => d | None => [] end)
             end
         end
   end).

(** What one turn of the [while] loop does next. *)
Inductive control : Type :=
| Next                  (* back to the loop test *)
| Break                 (* [break] *)
| Unwind (e : exn).     (* an exception [except Exception] does not catch *)

Record turn : Type := mkTurn {
  turn_self : t;
  turn_disk : fs;
  turn_handle : handle;
  turn_trace : list effect;
  turn_control : control
}.

(** The [except Exception as e] block. *)
Definition on_exception (self : t) (disk : fs) (fh : handle) (e : exn) : turn :=
  let st := DownloadStats.set_has_error (stats self) true in
  let n := S (DownloadStats.repeated_error_count st) in
  let st := DownloadStats.set_repeated_error_count st n in
  if Qgtb (penalty n) 60
  then mkTurn (set_stats self (DownloadStats.set_is_done st true)) disk fh
         [PrintError e; PrintAborted (item_type self)] Break
  else mkTurn (set_stats self st) disk fh
         [PrintError e; PrintRetrying n; Sleep n] Next.

(** The body of the [try] once [_fetch_data] has returned [data].  When
    [datetime.fromtimestamp] raises, the item count and the cursor have
    been updated already and control passes to the [except] block. *)
Definition on_data (self : t) (disk : fs) (fh : handle) (data : list Item) : turn :=
  match data with
  | [] =>
      mkTurn (set_stats self (DownloadStats.set_is_done (stats self) true))
        disk fh [PrintComplete (item_type self)] Break
  | first :: rest =>
      let st := DownloadStats.set_total_items (stats self)
                  (DownloadStats.total_items (stats self) + List.length data) in
      let last_item := last rest first in
      let new_date := created_utc_ms last_item in
      let new_date :=
        if (new_date =? current_date self)%Z then (new_date + 1000)%Z
        else new_date in
      let self := set_current_date self new_date in
      if fromtimestamp_ok new_date
      then
        let st := DownloadStats.set_current_date st (Some new_date) in
        let fh := write_items fh data in
        let '(disk, fh) := flush disk fh in
        let st := DownloadStats.set_repeated_error_count st 0 in
        let st := if DownloadStats.has_error st
                  then DownloadStats.set_has_error st false else st in
        mkTurn (set_stats self st) disk fh [PrintProgress st] Next
      else
        on_exception (set_stats self st) disk fh
          (ValueError "year is out of range")
  end.

(** One turn of the loop of [_run]: the [try] and its handler. *)
Definition iteration (self : t) (disk : fs) (fh : handle)
  (ev : net_event (list Item)) : turn :=
  let '(tr, fetched) := _fetch_data self ev in
  match fetched with
  | Ok data =>
      let r := on_data self disk fh data in
      mkTurn (turn_self r) (turn_disk r) (turn_handle r)
        (tr ++ turn_trace r)%list (turn_control r)
  | Raise e =>
      if is_Exception e
      then
        let r := on_exception self disk fh e in
        mkTurn (turn_self r) (turn_disk r) (turn_handle r)
          (tr ++ turn_trace r)%list (turn_control r)
      else mkTurn self disk fh tr (Unwind e)
  end.

Record run_result : Type := mkRun {
  run_self : t;
  run_disk : fs;
  run_handle : handle;
  run_trace : list effect;
  run_rest : list (net_event (list Item));   (* outcomes not consumed *)
  run_ending : ending
}.

Definition after (tr : list effect) (r : run_result) : run_result :=
  mkRun (run_self r) (run_disk r) (run_handle r) (tr ++ run_trace r)%list
    (run_rest r) (run_ending r).

(** [_run]: the loop, against the script [world]. *)
Fixpoint _run (self : t) (disk : fs) (fh : handle)
  (world : list (net_event (list Item))) : run_result :=
  if DownloadStats.is_paused (stats self) || DownloadStats.is_done (stats self)
  then mkRun self disk fh [] world Returned
  else
    match world with
    | [] => mkRun self disk fh [] [] Awaiting
    | ev :: world' =>
        let r := iteration self disk fh ev in
        match turn_control r with
        | Next =>
            after (turn_trace r)
              (_run (turn_self r) (turn_disk r) (turn_handle r) world')
        | Break =>
            mkRun (turn_self r) (turn_disk r) (turn_handle r) (turn_trace r)
              world' Returned
        | Unwind e =>
            mkRun (turn_self r) (turn_disk r) (turn_handle r) (turn_trace r)
              world' (Propagated e)
        end
    end.

Record start_result : Type := mkStart {
  started_self : t;
  started_disk : fs;
  started_trace : list effect;
  started_rest : list (net_event (list Item));
  started_ending : ending
}.

(** [start], at clock reading [now]. *)
Definition start (self : t) (now : Q) (disk : fs)
  (world : list (net_event (list Item))) : start_result :=
  let m := if append self then ModeA else ModeW in
  let st := DownloadStats.set_start_time (stats self) now in
  let st := DownloadStats.set_is_paused st false in
  let self := set_stats self st in
  let '(disk, fh) := open_ disk (output_file self) m in
  let r := _run self disk fh world in
  match run_ending r with
  | Awaiting =>
      mkStart (run_self r) (run_disk r) (run_trace r) (run_rest r) Awaiting
  | Returned =>
      mkStart (run_self r) (close (run_disk r) (run_handle r)) (run_trace r)
        (run_rest r) Returned
  | Propagated KeyboardInterrupt =>
      let self := run_self r in
      mkStart
        (set_stats self (DownloadStats.set_is_paused (stats self) true))
        (close (run_disk r) (run_handle r))
        (run_trace r ++ [PrintInterrupted (item_type self)])%list
        (run_rest r) Returned
  | Propagated e =>
      mkStart (run_self r) (close (run_disk r) (run_handle r)) (run_trace r)
        (run_rest r) (Propagated e)
  end.

End ArchiveStream.

(** ** The coordinator *)

Module CombinedArchiveStream.

Record t : Type := mk {
  posts_stream : option ArchiveStream.t;
  comments_stream : option ArchiveStream.t
}.

Record start_result : Type := mkStart {
  posts_after : option ArchiveStream.t;
  comments_after : option ArchiveStream.t;
  final_disk : fs;
  trace : list effect;
  rest : list (net_event (list Item));
  how : ending
}.

(** [start]; [now_posts] and [now_comments] are the clock readings of the
    two streams. *)
Definition start (self : t) (now_posts now_comments : Q) (disk : fs)
  (world : list (net_event (list Item))) : start_result :=
  let first :=
    match posts_stream self with
    | Some posts =>
        let r := ArchiveStream.start posts now_posts disk world in
        mkStart (Some (ArchiveStream.started_self r)) (comments_stream self)
          (ArchiveStream.started_disk r)
          (PrintStartingPosts :: ArchiveStream.started_trace r)
          (ArchiveStream.started_rest r) (ArchiveStream.started_ending r)
    | None => mkStart None (comments_stream self) disk [] world Returned
    end in
  match how first with
  | Returned =>
      match comments_stream self with
      | Some comments =>
          let r := ArchiveStream.start comments now_comments
                     (final_disk first) (rest first) in
          mkStart (posts_after first) (Some (ArchiveStream.started_self r))
            (ArchiveStream.started_disk r)
            (trace first ++ PrintStartingComments
               :: ArchiveStream.started_trace r
               ++ match ArchiveStream.started_ending r with
                  | Returned => [PrintAllComplete]
                  | _ => []
                  end)%list
            (ArchiveStream.started_rest r) (ArchiveStream.started_ending r)
      | None =>
          mkStart (posts_after first) None (final_disk first)
            (trace first ++ [PrintAllComplete])%list (rest first) Returned
      end
  | _ => first
  end.

End CombinedArchiveStream.

(** ** Validation of the name *)

Section Validation.

(** [int(datetime.fromisoformat(s).timestamp() * 1000)]; [None] when
    [fromisoformat] rejects the text. *)
Variable iso_to_ms : string -> option Z.

(** [s.replace("Z", "+00:00")] *)
Fixpoint replace_Z (s : string) : string :=
  match s with
  | EmptyString => EmptyString
  | String c s' =>
      (if Ascii.eqb c "Z"%char then "+00:00" else str1 c) ++ replace_Z s'
  end.

Definition min_url (name : string) (download_type : DownloadType) : string :=
  API_URL ++ "/api/utils/min?" ++ value download_type ++ "=" ++ name
  ++ "&meta-app=download-tool-cli".

Definition info_url (name : string) (download_type : DownloadType) : string :=
  match download_type with
  | SUBREDDIT =>
      API_URL ++ "/api/subreddits/search?subreddit=" ++ name
      ++ "&meta-app=download-tool-cli"
  | USER =>
      API_URL ++ "/api/users/search?author=" ++ name
      ++ "&meta-app=download-tool-cli"
  end.

(** [validate_name]; [min_answer] and [info_answer] are the outcomes its
    two requests have when they are made. *)
Definition validate_name (name : string) (download_type : DownloadType)
  (min_answer : net_event json) (info_answer : net_event (list Dict))
  : list effect * result (Z * Dict) :=
  if (String.length name <? 2)%nat
  then ([], Raise (ValueError "Name must be at least 2 characters long"))
  else
    let tr := [Get (min_url name download_type)] in
    match min_answer with
    | Fails e => (tr, Raise e)
    | Answer response =>
        if negb (status_code response =? 200)%Z
        then (tr, Raise (Exception (StatusCode (status_code response) None)))
        else
          match json_body response with
          | None => (tr, Raise JSONDecodeError)
          | Some parsed =>
              if match error parsed with Some err => truthy err | None => false end
              then (tr, Raise (Exception
                                 (ApiReported
                                    (match error parsed with
                                     | Some err => err
                                     | None => JNull
                                     end))))
              else
                match data parsed with
                | None | Some JNull =>
                    (tr, Raise (Exception (NoSuchName (value download_type))))
                | Some earliest =>
                    let tr := (tr ++ [Get (info_url name download_type)])%list in
                    match info_answer with
                    | Fails e => (tr, Raise e)
                    | Answer info_response =>
                        if negb (status_code info_response =? 200)%Z
                        then (tr, Raise (Exception
                                           (StatusCode
                                              (status_code info_response) None)))
                        else
                          match json_body info_response with
                          | None => (tr, Raise JSONDecodeError)
                          | Some info_data =>
                              match
                                match data info_data with
                                | Some l => l
                                | None => [[]]
                                end
                              with
                              | [] => (tr, Raise IndexError)
                              | info :: _ =>
                                  match earliest with
                                  | JStr iso =>
                                      match iso_to_ms (replace_Z iso) with
                                      | Some date_timestamp =>
                                          (tr, Ok (date_timestamp, info))
                                      | None =>
                                          (tr, Raise (ValueError
                                                        "Invalid isoformat string"))
                                      end
                                  | _ => (tr, Raise AttributeError)
                                  end
                              end
                          end
                    end
                end
          end
    end.

End Validation.

(** ** Observations the statements are written with *)

(** The delays of the [time.sleep] calls of a trace, in order. *)
Definition sleeps (tr : list effect) : list nat :=
  flat_map (fun e => match e with Sleep n => [n] | _ => [] end) tr.

(** The addresses requested in a trace, in order. *)
Definition requests (tr : list effect) : list string :=
  flat_map (fun e => match e with Get u => [u] | _ => [] end) tr.

(** What [_fetch_data] returns or raises on a network outcome; the stream
    only decides the address. *)
Definition fetch_outcome (ev : net_event (list Item)) : result (list Item) :=
  snd (ArchiveStream._fetch_data
         (ArchiveStream.init EmptyString 0 EmptyString EmptyString false) ev).

(** A failed fetch: [_fetch_data] raises something [except Exception]
    catches. *)
Definition fetch_fails (ev : net_event (list Item)) : bool :=
  match fetch_outcome ev with
  | Raise e => is_Exception e
  | Ok _ => false
  end.

(** The pages of the successful fetches among network outcomes, in order. *)
Definition fetched_pages (evs : list (net_event (list Item)))
  : list (list Item) :=
  flat_map (fun ev => match fetch_outcome ev with
                      | Ok page => [page]
                      | Raise _ => []
                      end) evs.

(** The cursor after a fetched page: the timestamp of its last item, a
    second more on a tie, unchanged for the empty page. *)
Definition next_cursor (c : Z) (page : list Item) : Z :=
  match page with
  | [] => c
  | first :: rest =>
      let t := created_utc_ms (last rest first) in
      if (t =? c)%Z then (t + 1000)%Z else t
  end.

(** The pages with items that get written, among network outcomes met from
    cursor [c] on: those fetched whose new cursor [datetime] accepts. *)
Fixpoint written_pages (c : Z) (evs : list (net_event (list Item)))
  : list (list Item) :=
  match evs with
  | [] => []
  | ev :: evs' =>
      match fetch_outcome ev with
      | Ok page =>
          let c' := next_cursor c page in
          if fromtimestamp_ok c' then page :: written_pages c' evs'
          else written_pages c' evs'
      | Raise _ => written_pages c evs'
      end
  end.


(** The loop test of [_run]. *)
Definition running (self : ArchiveStream.t) : bool :=
  negb (DownloadStats.is_paused (ArchiveStream.stats self)
        || DownloadStats.is_done (ArchiveStream.stats self)).

(** ** Sample inputs *)

Definition item_at (seconds : Z) : Item :=
  mkItem [("id", JStr "t3_a"); ("created_utc", JInt seconds)] eq_refl.

Definition item_undated : Item :=
  mkItem [("id", JStr "t3_b"); ("title", JStr "no date")] eq_refl.

(** A 200 answer carrying [{"data": page}]. *)
Definition page_answer (page : list Item) : net_event (list Item) :=
  Answer (mkResponse 200 "{...}" (Some (mkBody None (Some page)))).

(** A 200 answer carrying [{}]. *)
Definition bare_answer : net_event (list Item) :=
  Answer (mkResponse 200 "{}" (Some (mkBody None None))).

Definition server_error : net_event (list Item) :=
  Answer (mkResponse 503 "Service Unavailable" None).

Definition posts0 : ArchiveStream.t :=
  ArchiveStream.init
    "https://arctic-shift.photon-reddit.com/api/posts/search?subreddit=rocq"
    0 "reddit_data/r_rocq_posts.jsonl" "Posts" false.

Definition comments0 : ArchiveStream.t :=
  ArchiveStream.init
    "https://arctic-shift.photon-reddit.com/api/comments/search?subreddit=rocq"
    0 "reddit_data/r_rocq_comments.jsonl" "Comments" false.

Definition at_cursor (self : ArchiveStream.t) (c : Z) : ArchiveStream.t :=
  ArchiveStream.set_current_date self c.

(** A stream that has just failed [n] times in a row. *)
Definition after_failures (self : ArchiveStream.t) (n : nat) : ArchiveStream.t :=
  ArchiveStream.set_stats self
    (DownloadStats.set_repeated_error_count
       (DownloadStats.set_has_error (ArchiveStream.stats self) true) n).

Definition appending (self : ArchiveStream.t) : ArchiveStream.t :=
  ArchiveStream.mk (ArchiveStream.url self) (ArchiveStream.start_date self)
    (ArchiveStream.current_date self) (ArchiveStream.output_file self)
    (ArchiveStream.item_type self) true (ArchiveStream.stats self).

Definition no_files : fs := fun _ => None.

Definition old_sink : fs :=
  fs_set no_files "reddit_data/r_rocq_posts.jsonl"
    ("{" ++ String dquote ("id" ++ String dquote (": 1}" ++ str1 newline))).

Definition std_handle (self : ArchiveStream.t) : handle :=
  mkHandle (ArchiveStream.output_file self) EmptyString.

(** ** Reading a sink back *)

(** The lines of a text, split at line feeds only and without their
    terminators, as reading the file line by line gives them; the last line
    needs no terminator. *)
Fixpoint read_lines (s : string) : list string :=
  match s with
  | EmptyString => []
  | String c s' =>
      if Ascii.eqb c newline then EmptyString :: read_lines s'
      else
        match read_lines s' with
        | [] => [str1 c]
        | l :: ls => String c l :: ls
        end
  end.

(** ** Progress line and short numbers *)

Section Formatting.

(** The floating point texts are parameters:
    [rate_text n t0] is [f"{n / max(1, time.time() - t0):.2f}"],
    [strftime ms] is the ['%Y-%m-%d %H:%M:%S'] text of the date built from
    [ms] milliseconds, [ratio_text n d] is [f"{n/d:.1f}"]. *)
Variable rate_text : nat -> Q -> string.
Variable strftime : Z -> string.
Variable ratio_text : Z -> Z -> string.

(** [DownloadStats.format_progress] *)
Definition format_progress (self : DownloadStats.t) : string :=
  if Qeq_bool (DownloadStats.start_time self) 0 then "Not started"
  else if (DownloadStats.total_items self =? 0)%nat
  then "No items downloaded yet"
  else
    let progress :=
      "Downloaded " ++ str_of_Z (Z.of_nat (DownloadStats.total_items self))
      ++ " items" in
    let progress :=
      match DownloadStats.current_date self with
      | Some d => progress ++ " up to " ++ strftime d
      | None => progress
      end in
    let progress :=
      progress ++ " ("
      ++ rate_text (DownloadStats.total_items self)
           (DownloadStats.start_time self)
      ++ " items/s)" in
    if DownloadStats.is_paused self then progress ++ " [PAUSED]"
    else if DownloadStats.has_error self then progress ++ " [ERROR]"
    else if DownloadStats.is_done self then progress ++ " [DONE]"
    else progress.

(** [number_to_short], on the JSON value [main] hands it; [None] is the
    [TypeError] of comparing something that is not a number with an
    [int]. *)
Definition number_to_short (num : json) : option string :=
  match num with
  | JInt n =>
      Some (if (n >=? 1000000)%Z then ratio_text n 1000000 ++ "M"
            else if (n >=? 1000)%Z then ratio_text n 1000 ++ "k"
            else str_of_Z n)
  | JBool b => Some (if b then "True" else "False")
  | _ => None
  end.

End Formatting.

(** ** The command line program *)

Module Main.

(** [args] as [parse_args] returns it. *)
Record Args : Type := mkArgs {
  name : string;
  type_ : string;                (* "subreddit" or "user" *)
  posts : bool;
  comments : bool;
  output_dir : string;
  start_date : option string;
  end_date : option string;
  append : bool
}.

(** What the [except Exception as e] of [main] can catch. *)
Inductive error : Type :=
| Raised (e : exn)               (* out of [validate_name] or the streams *)
| TypeError                      (* out of [number_to_short] *)
| BadDate (text : string).       (* [ValueError] of [strptime] *)

Inductive output : Type :=
| Eff (e : effect)
| PrintFound (entity_type entity_prefix name : string)
| PrintApproximately (num_posts num_comments : string)
| PrintStartDate (ms : Z)
| PrintEndDate (ms : option Z)   (* [None]: "End date: Now" *)
| MakeDirs (dir : string)        (* os.makedirs(dir, exist_ok=True) *)
| PrintError (e : error).

Inductive outcome : Type :=
| Exit (code : Z)                (* [main] returned [code] *)
| Uncaught (e : exn)             (* an exception left [main] *)
| Blocked.                       (* a stream is still waiting for the network *)

Record result : Type := mkResult {
  how : outcome;
  out : list output;
  final_disk : fs;
  configured : option CombinedArchiveStream.t;
  ran : option CombinedArchiveStream.start_result
}.

(** [os.path.join(a, b)] of [posixpath]. *)
Definition path_join (a b : string) : string :=
  match b with
  | String "/" _ => b
  | _ =>
      match a with
      | EmptyString => b
      | _ =>
          if String.eqb (substring (String.length a - 1) 1 a) "/"
          then a ++ b
          else a ++ "/" ++ b
      end
  end.

(** Truth value of an optional text or number, as [if x:] tests it. *)
Definition given_text (s : option string) : option string :=
  match s with
  | Some t => if String.eqb t EmptyString then None else Some t
  | None => None
  end.

Definition given_number (n : option Z) : option Z :=
  match n with
  | Some z => if (z =? 0)%Z then None else Some z
  | None => None
  end.

Section WithClock.

Variable iso_to_ms : string -> option Z.
Variable ratio_text : Z -> Z -> string.
(** [int(datetime.strptime(s, "%Y-%m-%d").timestamp() * 1000)]; [None]
    when [strptime] raises [ValueError]. *)
Variable strptime_ms : string -> option Z.
(** Milliseconds of the local midnight of the day of a timestamp. *)
Variable midnight_ms : Z -> Z.

(** The two lines of [main] that show the approximate counts. *)
Definition show_counts (info : Dict) : list output * option error :=
  match info with
  | [] => ([], None)
  | _ :: _ =>
      match dict_get "_meta" info with
      | None => ([], None)
      | Some (JObj meta) =>
          match number_to_short ratio_text
                  (match dict_get "num_posts" meta with
                   | Some v => v
                   | None => JInt 0
                   end) with
          | None => ([], Some TypeError)
          | Some p =>
              match number_to_short ratio_text
                      (match dict_get "num_comments" meta with
                       | Some v => v
                       | None => JInt 0
                       end) with
              | None => ([], Some TypeError)
              | Some c => ([PrintApproximately p c], None)
              end
          end
      | Some _ => ([], Some (Raised AttributeError))
      end
  end.

(** The streams [main] builds. *)
Definition make_streams (args : Args) (download_type : DownloadType)
  (start_timestamp : Z) (end_timestamp : option Z) : CombinedArchiveStream.t :=
  let posts := if negb (posts args) && negb (comments args) then true
               else posts args in
  let comments := if negb (Main.posts args) && negb (comments args) then true
                  else comments args in
  let file_prefix :=
    (match download_type with SUBREDDIT => "r_" | USER => "u_" end)
    ++ name args in
  let end_date_condition :=
    match given_number end_timestamp with
    | Some e => "&before=" ++ str_of_Z e
    | None => EmptyString
    end in
  CombinedArchiveStream.mk
    (if posts
     then Some (ArchiveStream.init
                  (API_URL ++ "/api/posts/search?" ++ value download_type
                   ++ "=" ++ name args ++ end_date_condition)
                  start_timestamp
                  (path_join (output_dir args) (file_prefix ++ "_posts.jsonl"))
                  "Posts" (append args))
     else None)
    (if comments
     then Some (ArchiveStream.init
                  (API_URL ++ "/api/comments/search?" ++ value download_type
                   ++ "=" ++ name args ++ end_date_condition)
                  start_timestamp
                  (path_join (output_dir args)
                     (file_prefix ++ "_comments.jsonl"))
                  "Comments" (append args))
     else None).

Definition failed (out : list output) (disk : fs) (e : error) : result :=
  mkResult (Exit 1) (out ++ [PrintError e])%list disk None None.

(** [main], given [args], the outcomes of the two requests of
    [validate_name], the clock readings of the two streams and the script
    of the search requests.  [os.makedirs] and the [open] of each stream
    are taken to succeed, so the only failures [main] reports here are the
    ones raised before the directory is made. *)
Definition main (args : Args)
  (min_answer : net_event json) (info_answer : net_event (list Dict))
  (now_posts now_comments : Q) (disk : fs)
  (world : list (net_event (list Item))) : result :=
  let download_type :=
    if String.eqb (type_ args) "subreddit" then SUBREDDIT else USER in
  let '(tr, validated) :=
    validate_name iso_to_ms (name args) download_type min_answer info_answer in
  let out := map Eff tr in
  match validated with
  | Raise e =>
      if is_Exception e then failed out disk (Raised e)
      else mkResult (Uncaught e) out disk None None
  | Ok (start_timestamp, info) =>
      let out :=
        (out ++ [match download_type with
                 | SUBREDDIT => PrintFound "Subreddit" "r/" (name args)
                 | USER => PrintFound "User" "u/" (name args)
                 end])%list in
      match show_counts info with
      | (_, Some e) => failed out disk e
      | (shown, None) =>
          let out := (out ++ shown)%list in
          match
            match given_text (start_date args) with
            | Some text =>
                match strptime_ms text with
                | Some ms => Ok ms
                | None => Raise (ValueError text)
                end
            | None => Ok (midnight_ms start_timestamp)
            end
          with
          | Raise _ =>
              failed out disk
                (BadDate (match start_date args with
                          | Some t => t
                          | None => EmptyString
                          end))
          | Ok start_timestamp =>
              match
                match given_text (end_date args) with
                | Some text =>
                    match strptime_ms text with
                    | Some ms => Ok (Some ms)
                    | None => Raise (ValueError text)
                    end
                | None => Ok None
                end
              with
              | Raise _ =>
                  failed out disk
                    (BadDate (match end_date args with
                              | Some t => t
                              | None => EmptyString
                              end))
              | Ok end_timestamp =>
                  let out :=
                    (out ++ [PrintStartDate start_timestamp;
                             PrintEndDate (given_number end_timestamp);
                             MakeDirs (output_dir args)])%list in
                  let combined_stream :=
                    make_streams args download_type start_timestamp
                      end_timestamp in
                  let r := CombinedArchiveStream.start combined_stream
                             now_posts now_comments disk world in
                  let out :=
                    (out ++ map Eff (CombinedArchiveStream.trace r))%list in
                  match CombinedArchiveStream.how r with
                  | Returned =>
                      mkResult (Exit 0) out (CombinedArchiveStream.final_disk r)
                        (Some combined_stream) (Some r)
                  | Awaiting =>
                      mkResult Blocked out (CombinedArchiveStream.final_disk r)
                        (Some combined_stream) (Some r)
                  | Propagated e =>
                      if is_Exception e
                      then mkResult (Exit 1) (out ++ [PrintError (Raised e)])%list
                             (CombinedArchiveStream.final_disk r)
                             (Some combined_stream) (Some r)
                      else mkResult (Uncaught e) out
                             (CombinedArchiveStream.final_disk r)
                             (Some combined_stream) (Some r)
                  end
              end
          end
      end
  end.

End WithClock.

End Main.

(** A command line that asks for nothing but the name. *)
Definition plain_args (name : string) : Main.Args :=
  Main.mkArgs name "subreddit" false false "./reddit_data" None None false.

Definition found_answer : net_event json :=
  Answer (mkResponse 200 "{...}"
            (Some (mkBody None (Some (JStr "2008-01-25T00:00:00.000Z"))))).

Definition info_answer_with (info : Dict) : net_event (list Dict) :=
  Answer (mkResponse 200 "{...}" (Some (mkBody None (Some [info])))).

(** ** Proof helpers *)

Ltac turn_cbn :=
  cbn [ArchiveStream.turn_self ArchiveStream.turn_disk
       ArchiveStream.turn_handle ArchiveStream.turn_trace
       ArchiveStream.turn_control].

Ltac run_cbn :=
  cbn [ArchiveStream.after ArchiveStream.run_self ArchiveStream.run_disk
       ArchiveStream.run_handle ArchiveStream.run_trace
       ArchiveStream.run_rest ArchiveStream.run_ending].

(** * Properties *)

(** ** Serialisation: one record, one line *)

Lemma count_char_app (c : ascii) (a b : string) :
  count_char c (a ++ b) = count_char c a + count_char c b.
Proof.
  induction a as [|x a IH]; simpl; [reflexivity|].
  rewrite IH. apply Nat.add_assoc.
Qed.

Lemma string_of_uint_one_line (d : uint) :
  count_char newline (NilEmpty.string_of_uint d) = 0.
Proof.
  induction d as [|d IH|d IH|d IH|d IH|d IH|d IH|d IH|d IH|d IH|d IH];
    [reflexivity | exact IH ..].
Qed.

Lemma str_of_Z_one_line (n : Z) : count_char newline (str_of_Z n) = 0.
Proof.
  unfold str_of_Z, NilZero.string_of_int, NilZero.string_of_uint.
  destruct (Z.to_int n) as [d|d]; destruct d; simpl;
    try reflexivity; apply string_of_uint_one_line.
Qed.

Lemma escape_char_one_line (c : ascii) :
  count_char newline (escape_char c) = 0.
Proof.
  destruct c as [[|] [|] [|] [|] [|] [|] [|] [|]]; vm_compute; reflexivity.
Qed.

Lemma escape_one_line (s : string) : count_char newline (escape s) = 0.
Proof.
  induction s as [|c s IH]; simpl; [reflexivity|].
  rewrite count_char_app, escape_char_one_line, IH. reflexivity.
Qed.

Lemma quote_one_line (s : string) : count_char newline (quote s) = 0.
Proof.
  unfold quote. simpl. rewrite count_char_app, escape_one_line. reflexivity.
Qed.

Lemma join_one_line (sep : string) (l : list string) :
  count_char newline sep = 0 ->
  Forall (fun s => count_char newline s = 0) l ->
  count_char newline (join sep l) = 0.
Proof.
  intros Hsep Hl. induction Hl as [|x l Hx Hl IH]; [reflexivity|].
  simpl. destruct l as [|y l']; [exact Hx|].
  rewrite !count_char_app, Hx, Hsep, IH. reflexivity.
Qed.

(** Induction on JSON trees, through the lists nested in them. *)
Lemma json_induction (P : json -> Prop) :
  P JNull ->
  (forall b, P (JBool b)) ->
  (forall n, P (JInt n)) ->
  (forall s, P (JStr s)) ->
  (forall l, Forall P l -> P (JArr l)) ->
  (forall o, Forall (fun kv => P (snd kv)) o -> P (JObj o)) ->
  forall v, P v.
Proof.
  intros HNull HBool HInt HStr HArr HObj.
  fix IH 1. intros [ |b|n|s|l|o].
  - exact HNull.
  - apply HBool.
  - apply HInt.
  - apply HStr.
  - apply HArr. revert l. fix IHl 1. intros [|x l].
    + constructor.
    + constructor; [apply IH | apply IHl].
  - apply HObj. revert o. fix IHo 1. intros [|[k x] o].
    + constructor.
    + constructor; [apply IH | apply IHo].
Qed.

(** [json.dumps] never emits a raw line feed. *)
Lemma dumps_one_line (v : json) : count_char newline (dumps v) = 0.
Proof.
  induction v as [ |b|n|s|l IH|o IH] using json_induction.
  - reflexivity.
  - destruct b; reflexivity.
  - apply str_of_Z_one_line.
  - apply quote_one_line.
  - cbn [dumps]. rewrite !count_char_app.
    rewrite join_one_line; [reflexivity|reflexivity|].
    induction IH as [|x l Hx Hl IHl]; simpl; constructor; assumption.
  - cbn [dumps]. rewrite !count_char_app.
    rewrite join_one_line; [reflexivity|reflexivity|].
    induction IH as [|[k x] o Hx Ho IHo]; cbn [map]; constructor;
      [|assumption].
    cbn [snd] in Hx.
    rewrite !count_char_app, quote_one_line, Hx. reflexivity.
Qed.


Lemma append_assoc (a b c : string) : (a ++ b) ++ c = a ++ (b ++ c).
Proof. induction a as [|x a IH]; simpl; [reflexivity|now rewrite IH]. Qed.

Lemma lines_app (p q : list Item) : lines (p ++ q) = lines p ++ lines q.
Proof.
  induction p as [|it p IH]; cbn [lines List.app]; [reflexivity|].
  rewrite IH. symmetry. apply append_assoc.
Qed.


Lemma append_empty_r (s : string) : s ++ EmptyString = s.
Proof. induction s as [|c s IH]; simpl; [reflexivity|now rewrite IH]. Qed.

(** ** The backoff threshold *)

Lemma penalty_le_60 (n : nat) : (penalty n <= 60)%Q <-> n <= 10.
Proof.
  unfold Qle, penalty, Qmult, inject_Z. cbn [Qnum Qden].
  change (Z.pos (2 * 1)) with 2%Z. nia.
Qed.

Lemma penalty_exceeds (n : nat) : Qgtb (penalty n) 60 = true <-> 11 <= n.
Proof.
  unfold Qgtb. rewrite negb_true_iff.
  destruct (Qle_bool (penalty n) 60) eqn:E.
  - apply Qle_bool_iff, penalty_le_60 in E. split; [discriminate|lia].
  - split; [intros _|reflexivity].
    destruct (le_lt_dec 11 n) as [H|H]; [exact H|exfalso].
    assert (Qle_bool (penalty n) 60 = true) as E'
      by (apply Qle_bool_iff, penalty_le_60; lia).
    congruence.
Qed.

Lemma penalty_within (n : nat) : Qgtb (penalty n) 60 = false <-> n <= 10.
Proof.
  destruct (Qgtb (penalty n) 60) eqn:E.
  - apply penalty_exceeds in E. split; [discriminate|lia].
  - split; [intros _|reflexivity].
    destruct (le_lt_dec n 10) as [H|H]; [exact H|exfalso].
    assert (Qgtb (penalty n) 60 = true) by (apply penalty_exceeds; lia).
    congruence.
Qed.

(** ** One turn of the loop *)

Lemma fetch_data_eq (self : ArchiveStream.t) (ev : net_event (list Item)) :
  ArchiveStream._fetch_data self ev
  = ([Get (ArchiveStream.fetch_url self)], fetch_outcome ev).
Proof. reflexivity. Qed.

Lemma iteration_data (self : ArchiveStream.t) (disk : fs) (fh : handle)
  (ev : net_event (list Item)) (page : list Item) :
  fetch_outcome ev = Ok page ->
  ArchiveStream.iteration self disk fh ev
  = let r := ArchiveStream.on_data self disk fh page in
    ArchiveStream.mkTurn (ArchiveStream.turn_self r) (ArchiveStream.turn_disk r)
      (ArchiveStream.turn_handle r)
      (Get (ArchiveStream.fetch_url self) :: ArchiveStream.turn_trace r)
      (ArchiveStream.turn_control r).
Proof.
  intros H. unfold ArchiveStream.iteration. rewrite fetch_data_eq, H.
  reflexivity.
Qed.

Lemma iteration_exception (self : ArchiveStream.t) (disk : fs) (fh : handle)
  (ev : net_event (list Item)) (e : exn) :
  fetch_outcome ev = Raise e ->
  is_Exception e = true ->
  ArchiveStream.iteration self disk fh ev
  = let r := ArchiveStream.on_exception self disk fh e in
    ArchiveStream.mkTurn (ArchiveStream.turn_self r) (ArchiveStream.turn_disk r)
      (ArchiveStream.turn_handle r)
      (Get (ArchiveStream.fetch_url self) :: ArchiveStream.turn_trace r)
      (ArchiveStream.turn_control r).
Proof.
  intros H He. unfold ArchiveStream.iteration. rewrite fetch_data_eq, H, He.
  reflexivity.
Qed.

Lemma iteration_unwind (self : ArchiveStream.t) (disk : fs) (fh : handle)
  (ev : net_event (list Item)) (e : exn) :
  fetch_outcome ev = Raise e ->
  is_Exception e = false ->
  ArchiveStream.iteration self disk fh ev
  = ArchiveStream.mkTurn self disk fh [Get (ArchiveStream.fetch_url self)]
      (ArchiveStream.Unwind e).
Proof.
  intros H He. unfold ArchiveStream.iteration. rewrite fetch_data_eq, H, He.
  reflexivity.
Qed.

Lemma fetch_fails_raise (ev : net_event (list Item)) :
  fetch_fails ev = true ->
  exists e, fetch_outcome ev = Raise e /\ is_Exception e = true.
Proof.
  unfold fetch_fails. destruct (fetch_outcome ev) as [page|e]; [discriminate|].
  intros H. exists e. split; [reflexivity|exact H].
Qed.

(** The handler, by the counter it reaches. *)
Lemma on_exception_retry (self : ArchiveStream.t) (disk : fs) (fh : handle)
  (e : exn) :
  let n := S (DownloadStats.repeated_error_count (ArchiveStream.stats self)) in
  n <= 10 ->
  ArchiveStream.on_exception self disk fh e
  = ArchiveStream.mkTurn
      (ArchiveStream.set_stats self
         (DownloadStats.set_repeated_error_count
            (DownloadStats.set_has_error (ArchiveStream.stats self) true) n))
      disk fh [PrintError e; PrintRetrying n; Sleep n] ArchiveStream.Next.
Proof.
  intros n Hn. unfold ArchiveStream.on_exception.
  cbn [DownloadStats.repeated_error_count DownloadStats.set_has_error].
  fold n. apply penalty_within in Hn. rewrite Hn. reflexivity.
Qed.

Lemma on_exception_abort (self : ArchiveStream.t) (disk : fs) (fh : handle)
  (e : exn) :
  let n := S (DownloadStats.repeated_error_count (ArchiveStream.stats self)) in
  11 <= n ->
  ArchiveStream.on_exception self disk fh e
  = ArchiveStream.mkTurn
      (ArchiveStream.set_stats self
         (DownloadStats.set_is_done
            (DownloadStats.set_repeated_error_count
               (DownloadStats.set_has_error (ArchiveStream.stats self) true) n)
            true))
      disk fh [PrintError e; PrintAborted (ArchiveStream.item_type self)]
      ArchiveStream.Break.
Proof.
  intros n Hn. unfold ArchiveStream.on_exception.
  cbn [DownloadStats.repeated_error_count DownloadStats.set_has_error].
  fold n. apply penalty_exceeds in Hn. rewrite Hn. reflexivity.
Qed.

(** A running stream given one network outcome takes exactly one turn. *)
Lemma run_one_turn (self : ArchiveStream.t) (disk : fs) (fh : handle)
  (ev : net_event (list Item)) :
  running self = true ->
  ArchiveStream.run_self (ArchiveStream._run self disk fh [ev])
  = ArchiveStream.turn_self (ArchiveStream.iteration self disk fh ev).
Proof.
  intros Hrun. unfold running in Hrun. apply negb_true_iff in Hrun.
  cbn [ArchiveStream._run]. rewrite Hrun. cbv zeta.
  destruct (ArchiveStream.turn_control _); run_cbn; try reflexivity.
  match goal with
  | |- context [if ?b then _ else _] => destruct b; reflexivity
  end.
Qed.

(** ** The sink *)

Lemma contents_fs_set (disk : fs) (p c : string) :
  contents (fs_set disk p c) p = c.
Proof. unfold contents, fs_set. rewrite String.eqb_refl. reflexivity. Qed.

Lemma write_items_buffer (page : list Item) (h : handle) :
  buffer (write_items h page) = buffer h ++ lines page
  /\ path (write_items h page) = path h.
Proof.
  revert h. induction page as [|it page IH]; intros h; cbn [write_items lines].
  - rewrite append_empty_r. split; reflexivity.
  - destruct (IH (write h (line it))) as [Hb Hp]. rewrite Hb, Hp.
    cbn [write buffer path]. rewrite append_assoc. split; reflexivity.
Qed.

Lemma on_exception_frame (self : ArchiveStream.t) (disk : fs) (fh : handle)
  (e : exn) :
  let r := ArchiveStream.on_exception self disk fh e in
  ArchiveStream.turn_disk r = disk
  /\ ArchiveStream.turn_handle r = fh
  /\ DownloadStats.total_items (ArchiveStream.stats (ArchiveStream.turn_self r))
     = DownloadStats.total_items (ArchiveStream.stats self)
  /\ ArchiveStream.current_date (ArchiveStream.turn_self r)
     = ArchiveStream.current_date self.
Proof.
  unfold ArchiveStream.on_exception. cbv zeta.
  destruct (Qgtb _ _); repeat split.
Qed.

(** A page that can be dated is put on disk line by line, in order, after
    what was there, and the buffer is empty again; one that cannot is left
    out.  Either way it is counted and the cursor moves. *)
Lemma on_data_sink (self : ArchiveStream.t) (disk : fs) (fh : handle)
  (page : list Item) :
  buffer fh = EmptyString ->
  let r := ArchiveStream.on_data self disk fh page in
  let c' := next_cursor (ArchiveStream.current_date self) page in
  contents (ArchiveStream.turn_disk r) (path fh)
  = contents disk (path fh)
    ++ lines (if fromtimestamp_ok c' then page else [])
  /\ buffer (ArchiveStream.turn_handle r) = EmptyString
  /\ path (ArchiveStream.turn_handle r) = path fh
  /\ DownloadStats.total_items (ArchiveStream.stats (ArchiveStream.turn_self r))
     = DownloadStats.total_items (ArchiveStream.stats self) + List.length page
  /\ ArchiveStream.current_date (ArchiveStream.turn_self r) = c'.
Proof.
  intros Hb. destruct page as [|first rest].
  - cbn. destruct (fromtimestamp_ok _);
      cbn [lines]; rewrite append_empty_r, Nat.add_0_r; auto.
  - unfold ArchiveStream.on_data, next_cursor. cbv zeta.
    destruct (fromtimestamp_ok _).
    + destruct (write_items_buffer (first :: rest) fh) as [Hwb Hwp].
      unfold flush.
      cbn [ArchiveStream.turn_disk ArchiveStream.turn_handle
           ArchiveStream.turn_self ArchiveStream.stats ArchiveStream.set_stats
           buffer path].
      rewrite Hwp, Hwb, Hb, contents_fs_set. cbn [append].
      repeat split.
      destruct (DownloadStats.has_error _); reflexivity.
    + match goal with
      | |- context [ArchiveStream.on_exception ?s disk fh ?e] =>
          destruct (on_exception_frame s disk fh e) as (Hd & Hh & Ht & Hc)
      end.
      rewrite Hd, Hh, Ht, Hc. cbn [lines]. rewrite append_empty_r.
      repeat split; assumption.
Qed.

Lemma fetched_pages_one (ev : net_event (list Item)) :
  List.concat (fetched_pages [ev])
  = match fetch_outcome ev with Ok page => page | Raise _ => [] end.
Proof.
  unfold fetched_pages. cbn [flat_map]. rewrite app_nil_r.
  destruct (fetch_outcome ev); cbn [List.concat]; [apply app_nil_r|reflexivity].
Qed.

Lemma fetched_pages_cons (ev : net_event (list Item))
  (evs : list (net_event (list Item))) :
  List.concat (fetched_pages (ev :: evs))
  = (List.concat (fetched_pages [ev]) ++ List.concat (fetched_pages evs))%list.
Proof.
  change (ev :: evs) with ([ev] ++ evs)%list.
  unfold fetched_pages. rewrite flat_map_app. apply List.concat_app.
Qed.

(** The cursor after a network outcome met at cursor [c]. *)
Lemma written_pages_one (c : Z) (ev : net_event (list Item)) :
  List.concat (written_pages c [ev])
  = match fetch_outcome ev with
    | Ok page => if fromtimestamp_ok (next_cursor c page) then page else []
    | Raise _ => []
    end.
Proof.
  cbn [written_pages]. destruct (fetch_outcome ev) as [page|e];
    [|reflexivity].
  cbv zeta. destruct (fromtimestamp_ok _); cbn [List.concat];
    [apply app_nil_r|reflexivity].
Qed.

Lemma written_pages_cons (c : Z) (ev : net_event (list Item))
  (evs : list (net_event (list Item))) :
  List.concat (written_pages c (ev :: evs))
  = (List.concat (written_pages c [ev])
     ++ List.concat
          (written_pages
             (match fetch_outcome ev with
              | Ok page => next_cursor c page
              | Raise _ => c
              end) evs))%list.
Proof.
  cbn [written_pages]. destruct (fetch_outcome ev) as [page|e];
    [|reflexivity].
  cbv zeta. destruct (fromtimestamp_ok _); cbn [List.concat List.app];
    [rewrite app_nil_r|]; reflexivity.
Qed.


(** Whatever a turn does, the sink grows by the page written in it, the
    count by the page fetched in it, and the cursor moves past it. *)
Lemma iteration_sink (self : ArchiveStream.t) (disk : fs) (fh : handle)
  (ev : net_event (list Item)) :
  buffer fh = EmptyString ->
  let r := ArchiveStream.iteration self disk fh ev in
  contents (ArchiveStream.turn_disk r) (path fh)
  = contents disk (path fh)
    ++ lines (List.concat
                (written_pages (ArchiveStream.current_date self) [ev]))
  /\ buffer (ArchiveStream.turn_handle r) = EmptyString
  /\ path (ArchiveStream.turn_handle r) = path fh
  /\ DownloadStats.total_items (ArchiveStream.stats (ArchiveStream.turn_self r))
     = DownloadStats.total_items (ArchiveStream.stats self)
       + List.length (List.concat (fetched_pages [ev]))
  /\ ArchiveStream.current_date (ArchiveStream.turn_self r)
     = match fetch_outcome ev with
       | Ok page => next_cursor (ArchiveStream.current_date self) page
       | Raise _ => ArchiveStream.current_date self
       end.
Proof.
  intros Hb. rewrite fetched_pages_one, written_pages_one.
  destruct (fetch_outcome ev) as [page|e] eqn:Hev.
  - rewrite (iteration_data _ _ _ _ _ Hev). cbv zeta.
    turn_cbn.
    apply on_data_sink, Hb.
  - cbn [lines List.length]. rewrite append_empty_r, Nat.add_0_r.
    destruct (is_Exception e) eqn:He.
    + rewrite (iteration_exception _ _ _ _ _ Hev He). cbv zeta.
      turn_cbn.
      destruct (on_exception_frame self disk fh e) as (Hd & Hh & Ht & Hc).
      rewrite Hd, Hh, Ht, Hc. auto.
    + rewrite (iteration_unwind _ _ _ _ _ Hev He).
      turn_cbn. repeat split; assumption.
Qed.

(** The loop invariant of [_run]: the sink holds what was on disk when the
    loop was entered followed by one line per item of every page written,
    and [total_items] has grown by the number of items fetched. *)
Lemma run_sink (world : list (net_event (list Item))) :
  forall (self : ArchiveStream.t) (disk : fs) (fh : handle),
  buffer fh = EmptyString ->
  let r := ArchiveStream._run self disk fh world in
  exists consumed,
    world = (consumed ++ ArchiveStream.run_rest r)%list
    /\ contents (ArchiveStream.run_disk r) (path fh)
       = contents disk (path fh)
         ++ lines (List.concat
                     (written_pages (ArchiveStream.current_date self)
                        consumed))
    /\ DownloadStats.total_items (ArchiveStream.stats (ArchiveStream.run_self r))
       = DownloadStats.total_items (ArchiveStream.stats self)
         + List.length (List.concat (fetched_pages consumed))
    /\ buffer (ArchiveStream.run_handle r) = EmptyString
    /\ path (ArchiveStream.run_handle r) = path fh.
Proof.
  induction world as [|ev world IH]; intros self disk fh Hb;
    cbn [ArchiveStream._run].
  - exists []. destruct (_ || _); cbn; rewrite append_empty_r, Nat.add_0_r; auto.
  - destruct (_ || _).
    { exists []. cbn. rewrite append_empty_r, Nat.add_0_r. auto. }
    cbv zeta.
    destruct (iteration_sink self disk fh ev Hb) as (Hd & Hb' & Hp & Ht & Hc).
    destruct (ArchiveStream.turn_control _) as [| |e].
    + destruct (IH (ArchiveStream.turn_self
                      (ArchiveStream.iteration self disk fh ev))
                  (ArchiveStream.turn_disk
                      (ArchiveStream.iteration self disk fh ev)) _ Hb')
        as (consumed & Hw & Hd' & Ht' & Hb'' & Hp').
      exists (ev :: consumed).
      run_cbn.
      rewrite fetched_pages_cons, written_pages_cons, lines_app, length_app.
      rewrite Hp in Hd', Hp'. rewrite Hc in Hd'.
      rewrite Hd', Hd, Ht', Ht, append_assoc.
      repeat split; try assumption; [|lia].
      cbn [List.app]. f_equal. exact Hw.
    + exists [ev].
      run_cbn. repeat split; assumption.
    + exists [ev].
      run_cbn. repeat split; assumption.
Qed.

(** The same for [start], which opens the sink and closes it again. *)
Lemma start_sink (self : ArchiveStream.t) (now : Q) (disk : fs)
  (world : list (net_event (list Item))) :
  let r := ArchiveStream.start self now disk world in
  let p := ArchiveStream.output_file self in
  exists consumed,
    world = (consumed ++ ArchiveStream.started_rest r)%list
    /\ contents (ArchiveStream.started_disk r) p
       = (if ArchiveStream.append self then contents disk p else EmptyString)
         ++ lines (List.concat
                     (written_pages (ArchiveStream.current_date self)
                        consumed))
    /\ DownloadStats.total_items
         (ArchiveStream.stats (ArchiveStream.started_self r))
       = DownloadStats.total_items (ArchiveStream.stats self)
         + List.length (List.concat (fetched_pages consumed)).
Proof.
  cbv zeta. unfold ArchiveStream.start, open_. cbv zeta.
  cbn [ArchiveStream.output_file ArchiveStream.set_stats ArchiveStream.append].
  match goal with
  | |- context [ArchiveStream._run ?s ?d ?h world] =>
      destruct (run_sink world s d h eq_refl)
        as (consumed & Hw & Hd & Ht & Hb & Hp);
      set (r := ArchiveStream._run s d h world) in *
  end.
  cbn [path] in Hd, Hp. rewrite contents_fs_set in Hd.
  cbn [ArchiveStream.stats ArchiveStream.set_stats
       ArchiveStream.current_date
       DownloadStats.total_items DownloadStats.set_is_paused
       DownloadStats.set_start_time] in Ht, Hd.
  assert (Hclose : contents (close (ArchiveStream.run_disk r)
                     (ArchiveStream.run_handle r))
                     (ArchiveStream.output_file self)
                   = contents (ArchiveStream.run_disk r)
                       (ArchiveStream.output_file self)).
  { unfold close, flush. cbn [fst]. rewrite Hp, Hb, contents_fs_set.
    apply append_empty_r. }
  exists consumed.
  assert (Hbase : (match (if ArchiveStream.append self then ModeA else ModeW) with
                   | ModeW => EmptyString
                   | ModeA => contents disk (ArchiveStream.output_file self)
                   end)
                  = if ArchiveStream.append self
                    then contents disk (ArchiveStream.output_file self)
                    else EmptyString)
    by (destruct (ArchiveStream.append self); reflexivity).
  rewrite Hbase in Hd.
  destruct (ArchiveStream.run_ending r) as [|e|];
    [| destruct e |];
    cbn [ArchiveStream.started_rest ArchiveStream.started_disk
         ArchiveStream.started_self ArchiveStream.stats
         ArchiveStream.set_stats DownloadStats.total_items
         DownloadStats.set_is_paused];
    rewrite ?Hclose; auto.
Qed.

(** ** The cursor *)

Lemma last_cons {A : Type} (l : list A) :
  forall a d : A, last (a :: l) d = last l a.
Proof.
  induction l as [|b l IH]; intros a d; [reflexivity|].
  change (last (a :: b :: l) d) with (last (b :: l) d).
  rewrite (IH b d), (IH b a). reflexivity.
Qed.

Lemma on_data_cursor (self : ArchiveStream.t) (disk : fs) (fh : handle)
  (first : Item) (rest : list Item) :
  ArchiveStream.current_date
    (ArchiveStream.turn_self
       (ArchiveStream.on_data self disk fh (first :: rest)))
  = let t := created_utc_ms (last rest first) in
    if (t =? ArchiveStream.current_date self)%Z then (t + 1000)%Z else t.
Proof.
  unfold ArchiveStream.on_data. cbv zeta.
  destruct (fromtimestamp_ok _); [reflexivity|].
  match goal with
  | |- context [ArchiveStream.on_exception ?s disk fh ?e] =>
      destruct (on_exception_frame s disk fh e) as (_ & _ & _ & Hc)
  end.
  rewrite Hc. reflexivity.
Qed.

Lemma on_data_empty (self : ArchiveStream.t) (disk : fs) (fh : handle) :
  ArchiveStream.on_data self disk fh []
  = ArchiveStream.mkTurn
      (ArchiveStream.set_stats self
         (DownloadStats.set_is_done (ArchiveStream.stats self) true))
      disk fh [PrintComplete (ArchiveStream.item_type self)]
      ArchiveStream.Break.
Proof. reflexivity. Qed.

(** After a page with items that can be dated the failure counter is zero
    and the error flag is down. *)
Lemma on_data_resets (self : ArchiveStream.t) (disk : fs) (fh : handle)
  (first : Item) (rest : list Item) :
  fromtimestamp_ok
    (next_cursor (ArchiveStream.current_date self) (first :: rest)) = true ->
  let r := ArchiveStream.on_data self disk fh (first :: rest) in
  DownloadStats.repeated_error_count
    (ArchiveStream.stats (ArchiveStream.turn_self r)) = 0
  /\ DownloadStats.has_error
       (ArchiveStream.stats (ArchiveStream.turn_self r)) = false
  /\ ArchiveStream.turn_control r = ArchiveStream.Next.
Proof.
  intros Hok. cbv zeta. unfold ArchiveStream.on_data. cbv zeta.
  unfold next_cursor in Hok. cbv zeta in Hok. rewrite Hok.
  destruct self as [u sd cd out it ap [ti st rt dt c p d he]].
  destruct he; repeat split; reflexivity.
Qed.

(** A page with items that cannot be dated is handled as a failure, met
    with the page counted and the cursor moved. *)
Lemma on_data_undatable (self : ArchiveStream.t) (disk : fs) (fh : handle)
  (first : Item) (rest : list Item) :
  fromtimestamp_ok
    (next_cursor (ArchiveStream.current_date self) (first :: rest)) = false ->
  ArchiveStream.on_data self disk fh (first :: rest)
  = ArchiveStream.on_exception
      (ArchiveStream.set_stats
         (ArchiveStream.set_current_date self
            (next_cursor (ArchiveStream.current_date self) (first :: rest)))
         (DownloadStats.set_total_items (ArchiveStream.stats self)
            (DownloadStats.total_items (ArchiveStream.stats self)
             + List.length (first :: rest))))
      disk fh (ValueError "year is out of range").
Proof.
  intros Hok. unfold ArchiveStream.on_data. cbv zeta.
  unfold next_cursor in *. cbv zeta in *. rewrite Hok. reflexivity.
Qed.

Lemma on_exception_control (self : ArchiveStream.t) (disk : fs) (fh : handle)
  (e : exn) :
  let r := ArchiveStream.on_exception self disk fh e in
  (ArchiveStream.turn_control r = ArchiveStream.Next
   /\ DownloadStats.is_done (ArchiveStream.stats (ArchiveStream.turn_self r))
      = DownloadStats.is_done (ArchiveStream.stats self))
  \/ (ArchiveStream.turn_control r = ArchiveStream.Break
      /\ DownloadStats.is_done (ArchiveStream.stats (ArchiveStream.turn_self r))
         = true).
Proof.
  unfold ArchiveStream.on_exception. cbv zeta.
  destruct (Qgtb _ _); [right|left]; split; reflexivity.
Qed.

(** The body of the [try] goes round again or breaks with the stream
    done; nothing it raises leaves the loop. *)
Lemma on_data_control (self : ArchiveStream.t) (disk : fs) (fh : handle)
  (page : list Item) :
  let r := ArchiveStream.on_data self disk fh page in
  ArchiveStream.turn_control r = ArchiveStream.Next
  \/ (ArchiveStream.turn_control r = ArchiveStream.Break
      /\ DownloadStats.is_done (ArchiveStream.stats (ArchiveStream.turn_self r))
         = true).
Proof.
  cbv zeta. destruct page as [|first rest].
  - right. split; reflexivity.
  - destruct (fromtimestamp_ok
                (next_cursor (ArchiveStream.current_date self)
                   (first :: rest))) eqn:Hok.
    + left. apply (on_data_resets self disk fh first rest Hok).
    + rewrite (on_data_undatable self disk fh first rest Hok).
      match goal with
      | |- context [ArchiveStream.on_exception ?s disk fh ?e] =>
          destruct (on_exception_control s disk fh e) as [[Hc _]|Hc]
      end; [left|right]; assumption.
Qed.

(** ** What leaves the loop *)

Lemma only_interrupt_escapes (e : exn) :
  is_Exception e = false -> e = KeyboardInterrupt.
Proof. destruct e; simpl; intros H; [discriminate H ..|reflexivity]. Qed.

Lemma iteration_unwinds_interrupt (self : ArchiveStream.t) (disk : fs)
  (fh : handle) (ev : net_event (list Item)) (e : exn) :
  ArchiveStream.turn_control (ArchiveStream.iteration self disk fh ev)
  = ArchiveStream.Unwind e ->
  e = KeyboardInterrupt.
Proof.
  destruct (fetch_outcome ev) as [page|e'] eqn:Hev.
  - rewrite (iteration_data _ _ _ _ _ Hev). cbv zeta.
    turn_cbn.
    destruct (on_data_control self disk fh page) as [Hc|[Hc _]];
      rewrite Hc; discriminate.
  - destruct (is_Exception e') eqn:He.
    + rewrite (iteration_exception _ _ _ _ _ Hev He). cbv zeta.
      turn_cbn. unfold ArchiveStream.on_exception.
      cbv zeta. destruct (Qgtb _ _); discriminate.
    + rewrite (iteration_unwind _ _ _ _ _ Hev He).
      turn_cbn. intros [= <-].
      apply only_interrupt_escapes, He.
Qed.

Lemma run_propagates_interrupt (world : list (net_event (list Item))) :
  forall (self : ArchiveStream.t) (disk : fs) (fh : handle) (e : exn),
  ArchiveStream.run_ending (ArchiveStream._run self disk fh world)
  = Propagated e ->
  e = KeyboardInterrupt.
Proof.
  induction world as [|ev world IH]; intros self disk fh e;
    cbn [ArchiveStream._run]; destruct (_ || _); try discriminate.
  cbv zeta.
  destruct (ArchiveStream.turn_control _) as [| |e'] eqn:Hc.
  - run_cbn. apply IH.
  - discriminate.
  - run_cbn. intros [= <-].
    apply (iteration_unwinds_interrupt _ _ _ _ _ Hc).
Qed.

(** [start] catches the one exception [_run] lets through. *)
Lemma start_ending (self : ArchiveStream.t) (now : Q) (disk : fs)
  (world : list (net_event (list Item))) :
  ArchiveStream.started_ending (ArchiveStream.start self now disk world)
  = Returned
  \/ ArchiveStream.started_ending (ArchiveStream.start self now disk world)
     = Awaiting.
Proof.
  unfold ArchiveStream.start, open_. cbv zeta.
  match goal with
  | |- context [ArchiveStream._run ?s ?d ?h world] =>
      pose proof (run_propagates_interrupt world s d h) as Hk;
      destruct (ArchiveStream.run_ending (ArchiveStream._run s d h world))
        as [|e|]
  end.
  - left. reflexivity.
  - rewrite (Hk e eq_refl). left. reflexivity.
  - right. reflexivity.
Qed.

(** ** Failures in a row *)

(** [k] failed fetches that keep the counter at ten or less are each
    answered by a sleep of as many seconds as the counter then shows. *)
Lemma run_failing (evs : list (net_event (list Item))) :
  forall (self : ArchiveStream.t) (disk : fs) (fh : handle)
         (rest : list (net_event (list Item))),
  running self = true ->
  forallb fetch_fails evs = true ->
  DownloadStats.repeated_error_count (ArchiveStream.stats self)
    + List.length evs <= 10 ->
  exists tr self',
    ArchiveStream._run self disk fh (evs ++ rest)%list
    = ArchiveStream.after tr (ArchiveStream._run self' disk fh rest)
    /\ running self' = true
    /\ DownloadStats.repeated_error_count (ArchiveStream.stats self')
       = DownloadStats.repeated_error_count (ArchiveStream.stats self)
         + List.length evs
    /\ ArchiveStream.current_date self' = ArchiveStream.current_date self
    /\ ArchiveStream.item_type self' = ArchiveStream.item_type self
    /\ sleeps tr
       = seq (S (DownloadStats.repeated_error_count (ArchiveStream.stats self)))
           (List.length evs).
Proof.
  induction evs as [|ev evs IH]; intros self disk fh rest Hrun Hfail Hle.
  - exists [], self. cbn [List.app List.length seq sleeps flat_map].
    rewrite Nat.add_0_r. repeat split; try assumption.
    destruct (ArchiveStream._run self disk fh rest); reflexivity.
  - cbn [forallb] in Hfail. apply andb_true_iff in Hfail as [Hev Hfail].
    cbn [List.length] in Hle.
    destruct (fetch_fails_raise ev Hev) as (e & Hout & He).
    cbn [List.app ArchiveStream._run].
    unfold running in Hrun. apply negb_true_iff in Hrun. rewrite Hrun.
    rewrite (iteration_exception _ _ _ _ _ Hout He). cbv zeta.
    rewrite on_exception_retry by (cbv zeta; lia).
    turn_cbn.
    match goal with
    | |- context [ArchiveStream._run ?s disk fh (evs ++ rest)%list] =>
        destruct (IH s disk fh rest) as (tr & self' & Heq & Hr & Hc & Hd & Hi & Hs)
    end.
    + unfold running. cbn. destruct (ArchiveStream.stats self); cbn in *.
      rewrite Hrun. reflexivity.
    + exact Hfail.
    + cbn. lia.
    + rewrite Heq.
      set (n := S (DownloadStats.repeated_error_count
                     (ArchiveStream.stats self))) in *.
      exists (Get (ArchiveStream.fetch_url self) :: PrintError e
              :: PrintRetrying n :: Sleep n :: tr), self'.
      split; [|repeat split].
      * reflexivity.
      * exact Hr.
      * rewrite Hc. cbn. lia.
      * rewrite Hd. reflexivity.
      * rewrite Hi. reflexivity.
      * change (sleeps (Get (ArchiveStream.fetch_url self) :: PrintError e
                        :: PrintRetrying n :: Sleep n :: tr))
          with (n :: sleeps tr).
        rewrite Hs.
        reflexivity.
Qed.

Lemma sleeps_app (a b : list effect) :
  sleeps (a ++ b)%list = (sleeps a ++ sleeps b)%list.
Proof. apply flat_map_app. Qed.

(** * The claims *)

(** ** Cursor *)

(** C1, as amended.  When the last item of a fetched page has a derived
    timestamp ([created_utc * 1000]) equal to the cursor, the new cursor is
    the old one plus 1000 milliseconds, that is one second. *)
Theorem tie_at_page_boundary_advances_one_second
  (self : ArchiveStream.t) (disk : fs) (fh : handle)
  (ev : net_event (list Item)) (page : list Item) (d : Item) :
  fetch_outcome ev = Ok page ->
  page <> [] ->
  created_utc_ms (last page d) = ArchiveStream.current_date self ->
  ArchiveStream.current_date
    (ArchiveStream.turn_self (ArchiveStream.iteration self disk fh ev))
  = (ArchiveStream.current_date self + 1000)%Z.
Proof.
  intros Hev Hne Htie.
  destruct page as [|first rest]; [congruence|].
  rewrite (iteration_data _ _ _ _ _ Hev). cbv zeta.
  turn_cbn. rewrite on_data_cursor. cbv zeta.
  rewrite last_cons in Htie. rewrite Htie, Z.eqb_refl. reflexivity.
Qed.

Lemma tie_at_page_boundary_example :
  fetch_outcome (page_answer [item_at 500; item_at 500])
  = Ok [item_at 500; item_at 500]
  /\ created_utc_ms (last [item_at 500; item_at 500] item_undated)
     = ArchiveStream.current_date (at_cursor posts0 500000)
  /\ ArchiveStream.current_date
       (ArchiveStream.turn_self
          (ArchiveStream.iteration (at_cursor posts0 500000) no_files
             (std_handle posts0) (page_answer [item_at 500; item_at 500])))
     = 501000%Z.
Proof.
  split; [reflexivity|]. split; [reflexivity|].
  apply (tie_at_page_boundary_advances_one_second
           (at_cursor posts0 500000) no_files (std_handle posts0)
           (page_answer [item_at 500; item_at 500])
           [item_at 500; item_at 500] item_undated);
    [reflexivity | discriminate | reflexivity].
Defined.

(** C1 as stated fails: two items of second 500 met at cursor 500000 move
    the cursor to 501000, not to 500001; and two such items met at cursor
    500 move it to 500000, not to 501. *)
Lemma tie_break_is_not_one_millisecond :
  created_utc_ms (last [item_at 500; item_at 500] item_undated)
  = ArchiveStream.current_date (at_cursor posts0 500000)
  /\ ArchiveStream.current_date
       (ArchiveStream.turn_self
          (ArchiveStream.iteration (at_cursor posts0 500000) no_files
             (std_handle posts0) (page_answer [item_at 500; item_at 500])))
     <> (ArchiveStream.current_date (at_cursor posts0 500000) + 1)%Z
  /\ ArchiveStream.current_date
       (ArchiveStream.turn_self
          (ArchiveStream.iteration (at_cursor posts0 500) no_files
             (std_handle posts0) (page_answer [item_at 500; item_at 500])))
     = 500000%Z.
Proof.
  split; [reflexivity|]. split; [|reflexivity].
  vm_compute. discriminate.
Qed.

(** C5, as amended.  A successful fetch does not move the cursor back when
    its page is empty or when the derived timestamp of the last item is not
    below the cursor. *)
Theorem cursor_does_not_decrease_on_ascending_page
  (self : ArchiveStream.t) (disk : fs) (fh : handle)
  (ev : net_event (list Item)) (page : list Item) (d : Item) :
  fetch_outcome ev = Ok page ->
  (page <> [] ->
   (ArchiveStream.current_date self <= created_utc_ms (last page d))%Z) ->
  (ArchiveStream.current_date self
   <= ArchiveStream.current_date
        (ArchiveStream.turn_self (ArchiveStream.iteration self disk fh ev)))%Z.
Proof.
  intros Hev Hasc.
  rewrite (iteration_data _ _ _ _ _ Hev). cbv zeta.
  turn_cbn.
  destruct page as [|first rest].
  - rewrite on_data_empty. cbn. lia.
  - rewrite on_data_cursor. cbv zeta.
    assert (Hle : (ArchiveStream.current_date self
                   <= created_utc_ms (last rest first))%Z).
    { rewrite <- (last_cons rest first d). apply Hasc. discriminate. }
    destruct (Z.eqb_spec (created_utc_ms (last rest first))
                (ArchiveStream.current_date self)); lia.
Qed.

Lemma cursor_does_not_decrease_example :
  fetch_outcome (page_answer [item_at 100; item_at 200; item_at 300])
  = Ok [item_at 100; item_at 200; item_at 300]
  /\ (ArchiveStream.current_date (at_cursor posts0 50)
      <= created_utc_ms
           (last [item_at 100; item_at 200; item_at 300] item_undated))%Z
  /\ (ArchiveStream.current_date (at_cursor posts0 50)
      <= ArchiveStream.current_date
           (ArchiveStream.turn_self
              (ArchiveStream.iteration (at_cursor posts0 50) no_files
                 (std_handle posts0)
                 (page_answer [item_at 100; item_at 200; item_at 300]))))%Z.
Proof.
  split; [reflexivity|]. split; [vm_compute; discriminate|].
  apply (cursor_does_not_decrease_on_ascending_page
           (at_cursor posts0 50) no_files (std_handle posts0)
           (page_answer [item_at 100; item_at 200; item_at 300])
           [item_at 100; item_at 200; item_at 300] item_undated);
    [reflexivity | intros _; vm_compute; discriminate].
Defined.

(** C5 as stated fails: the cursor takes the timestamp of the last item
    whatever it is.  At cursor 5000 a fetch that succeeds with a page whose
    last item carries no [created_utc] puts the cursor at 0, and one whose
    last item is of second 3 puts it at 3000. *)
Lemma cursor_can_move_back :
  fetch_outcome (page_answer [item_at 7; item_undated])
  = Ok [item_at 7; item_undated]
  /\ (ArchiveStream.current_date
        (ArchiveStream.turn_self
           (ArchiveStream.iteration (at_cursor posts0 5000) no_files
              (std_handle posts0) (page_answer [item_at 7; item_undated])))
      < ArchiveStream.current_date (at_cursor posts0 5000))%Z
  /\ (ArchiveStream.current_date
        (ArchiveStream.turn_self
           (ArchiveStream.iteration (at_cursor posts0 5000) no_files
              (std_handle posts0) (page_answer [item_at 3])))
      < ArchiveStream.current_date (at_cursor posts0 5000))%Z.
Proof.
  split; [reflexivity|]. split; vm_compute; reflexivity.
Qed.

(** ** Completion and the error flag *)

(** C2: what the code does on an empty page.  The stream is marked done and
    the loop is left, but the error flag and the failure counter keep the
    values earlier failures gave them: the statements that reset them come
    after the [break]. *)
Theorem empty_page_marks_done_and_keeps_error_flag
  (self : ArchiveStream.t) (disk : fs) (fh : handle)
  (ev : net_event (list Item)) :
  fetch_outcome ev = Ok [] ->
  let r := ArchiveStream.iteration self disk fh ev in
  ArchiveStream.turn_control r = ArchiveStream.Break
  /\ DownloadStats.is_done (ArchiveStream.stats (ArchiveStream.turn_self r))
     = true
  /\ DownloadStats.has_error (ArchiveStream.stats (ArchiveStream.turn_self r))
     = DownloadStats.has_error (ArchiveStream.stats self)
  /\ DownloadStats.repeated_error_count
       (ArchiveStream.stats (ArchiveStream.turn_self r))
     = DownloadStats.repeated_error_count (ArchiveStream.stats self).
Proof.
  intros Hev. cbv zeta.
  rewrite (iteration_data _ _ _ _ _ Hev). cbv zeta.
  rewrite on_data_empty.
  turn_cbn.
  repeat split.
Qed.

Lemma empty_page_after_failures_ends_done_with_error :
  fetch_outcome bare_answer = Ok []
  /\ DownloadStats.has_error (ArchiveStream.stats (after_failures posts0 3))
     = true
  /\ DownloadStats.is_done
       (ArchiveStream.stats
          (ArchiveStream.turn_self
             (ArchiveStream.iteration (after_failures posts0 3) no_files
                (std_handle posts0) bare_answer))) = true
  /\ DownloadStats.has_error
       (ArchiveStream.stats
          (ArchiveStream.turn_self
             (ArchiveStream.iteration (after_failures posts0 3) no_files
                (std_handle posts0) bare_answer))) = true.
Proof.
  split; [reflexivity|]. split; [reflexivity|].
  destruct (empty_page_marks_done_and_keeps_error_flag
              (after_failures posts0 3) no_files (std_handle posts0)
              bare_answer eq_refl) as (_ & Hdone & Herr & _).
  split; [exact Hdone|]. rewrite Herr. reflexivity.
Defined.

(** C3: what the code does after a successful fetch.  A page with items
    whose new cursor [datetime] can date resets the failure counter and
    clears the error flag; an empty page leaves both as they were; a page
    whose new cursor cannot be dated counts as one more failure. *)
Theorem success_resets_backoff_only_after_a_written_page
  (self : ArchiveStream.t) (disk : fs) (fh : handle)
  (ev : net_event (list Item)) (page : list Item) :
  fetch_outcome ev = Ok page ->
  let after := ArchiveStream.stats
                 (ArchiveStream.turn_self
                    (ArchiveStream.iteration self disk fh ev)) in
  match page with
  | _ :: _ =>
      if fromtimestamp_ok
           (next_cursor (ArchiveStream.current_date self) page)
      then DownloadStats.repeated_error_count after = 0
           /\ DownloadStats.has_error after = false
      else DownloadStats.repeated_error_count after
           = S (DownloadStats.repeated_error_count (ArchiveStream.stats self))
           /\ DownloadStats.has_error after = true
  | [] =>
      DownloadStats.repeated_error_count after
      = DownloadStats.repeated_error_count (ArchiveStream.stats self)
      /\ DownloadStats.has_error after
         = DownloadStats.has_error (ArchiveStream.stats self)
  end.
Proof.
  intros Hev. cbv zeta.
  rewrite (iteration_data _ _ _ _ _ Hev). cbv zeta.
  turn_cbn.
  destruct page as [|first rest].
  - rewrite on_data_empty. split; reflexivity.
  - destruct (fromtimestamp_ok _) eqn:Hok.
    + destruct (on_data_resets self disk fh first rest Hok) as (Hc & He & _).
      split; assumption.
    + rewrite (on_data_undatable self disk fh first rest Hok).
      unfold ArchiveStream.on_exception. cbv zeta.
      destruct (Qgtb _ _); split; reflexivity.
Qed.

Lemma empty_page_after_failures_keeps_counter :
  fetch_outcome bare_answer = Ok []
  /\ DownloadStats.repeated_error_count
       (ArchiveStream.stats
          (ArchiveStream.turn_self
             (ArchiveStream.iteration (after_failures posts0 3) no_files
                (std_handle posts0) bare_answer))) = 3
  /\ DownloadStats.has_error
       (ArchiveStream.stats
          (ArchiveStream.turn_self
             (ArchiveStream.iteration (after_failures posts0 3) no_files
                (std_handle posts0) bare_answer))) = true.
Proof.
  split; [reflexivity|].
  exact (success_resets_backoff_only_after_a_written_page
           (after_failures posts0 3) no_files (std_handle posts0)
           bare_answer [] eq_refl).
Defined.

(** ** Backoff *)

(** C4.  A failed fetch raises the counter to [n], sets the error flag and
    then, when [0.5 * n^2 > 60], marks the stream done and leaves the loop
    without sleeping, otherwise sleeps [n] seconds and goes round again.
    The test holds from [n = 11] on.  So eleven failures in a row, met
    with the counter at zero, sleep 1, 2, ..., 10 seconds, 55 in all, and
    the eleventh ends the run, done and in error. *)
Theorem backoff_retries_ten_times_then_aborts :
  (forall (self : ArchiveStream.t) (disk : fs) (fh : handle)
          (ev : net_event (list Item)),
      fetch_fails ev = true ->
      let n := S (DownloadStats.repeated_error_count
                    (ArchiveStream.stats self)) in
      let r := ArchiveStream.iteration self disk fh ev in
      let st := ArchiveStream.stats (ArchiveStream.turn_self r) in
      DownloadStats.repeated_error_count st = n
      /\ DownloadStats.has_error st = true
      /\ if Qgtb (penalty n) 60
         then ArchiveStream.turn_control r = ArchiveStream.Break
              /\ DownloadStats.is_done st = true
              /\ sleeps (ArchiveStream.turn_trace r) = []
         else ArchiveStream.turn_control r = ArchiveStream.Next
              /\ DownloadStats.is_done st
                 = DownloadStats.is_done (ArchiveStream.stats self)
              /\ sleeps (ArchiveStream.turn_trace r) = [n])
  /\ (forall n : nat, Qgtb (penalty n) 60 = true <-> 11 <= n)
  /\ (forall (self : ArchiveStream.t) (disk : fs) (fh : handle)
             (evs rest : list (net_event (list Item))),
         running self = true ->
         DownloadStats.repeated_error_count (ArchiveStream.stats self) = 0 ->
         List.length evs = 11 ->
         forallb fetch_fails evs = true ->
         let r := ArchiveStream._run self disk fh (evs ++ rest)%list in
         let st := ArchiveStream.stats (ArchiveStream.run_self r) in
         ArchiveStream.run_ending r = Returned
         /\ ArchiveStream.run_rest r = rest
         /\ DownloadStats.is_done st = true
         /\ DownloadStats.has_error st = true
         /\ DownloadStats.repeated_error_count st = 11
         /\ sleeps (ArchiveStream.run_trace r) = [1; 2; 3; 4; 5; 6; 7; 8; 9; 10]
         /\ list_sum (sleeps (ArchiveStream.run_trace r)) = 55).
Proof.
  split; [|split].
  - intros self disk fh ev Hev n r st.
    destruct (fetch_fails_raise ev Hev) as (e & Hout & He).
    subst st r. rewrite (iteration_exception _ _ _ _ _ Hout He). cbv zeta.
    turn_cbn.
    destruct (Qgtb (penalty n) 60) eqn:Hp.
    + apply penalty_exceeds in Hp.
      rewrite (on_exception_abort self disk fh e Hp). repeat split.
    + apply penalty_within in Hp.
      rewrite (on_exception_retry self disk fh e Hp). repeat split.
  - exact penalty_exceeds.
  - intros self disk fh evs rest Hrun Hzero Hlen Hfail r st.
    assert (Hsplit : evs = (firstn 10 evs ++ skipn 10 evs)%list)
      by (symmetry; apply firstn_skipn).
    destruct (skipn 10 evs) as [|ev [|ev' tl]] eqn:Hskip;
      try (apply (f_equal (@List.length _)) in Hskip;
           rewrite length_skipn, Hlen in Hskip; discriminate Hskip).
    set (front := firstn 10 evs) in *.
    assert (Hfront : List.length front = 10)
      by (unfold front; rewrite length_firstn, Hlen; reflexivity).
    rewrite Hsplit, forallb_app in Hfail.
    apply andb_true_iff in Hfail as [Hff Hlast].
    cbn [forallb] in Hlast. rewrite andb_true_r in Hlast.
    destruct (run_failing front self disk fh (ev :: rest) Hrun Hff)
      as (tr & self' & Heq & Hr & Hc & _ & _ & Hs); [lia|].
    rewrite Hzero, Hfront in Hc, Hs.
    destruct (fetch_fails_raise ev Hlast) as (e & Hout & He).
    subst st r. rewrite Hsplit, <- app_assoc. cbn [List.app]. rewrite Heq.
    cbn [ArchiveStream._run]. unfold running in Hr.
    apply negb_true_iff in Hr. rewrite Hr.
    rewrite (iteration_exception _ _ _ _ _ Hout He). cbv zeta.
    rewrite on_exception_abort by (cbv zeta; lia).
    turn_cbn; run_cbn.
    rewrite sleeps_app, Hs, Hc. repeat split.
Qed.

Lemma eleven_server_errors_abort_after_55_seconds :
  let r := ArchiveStream._run posts0 no_files (std_handle posts0)
             (repeat server_error 11 ++ [bare_answer])%list in
  ArchiveStream.run_ending r = Returned
  /\ DownloadStats.is_done (ArchiveStream.stats (ArchiveStream.run_self r))
     = true
  /\ DownloadStats.has_error (ArchiveStream.stats (ArchiveStream.run_self r))
     = true
  /\ sleeps (ArchiveStream.run_trace r) = [1; 2; 3; 4; 5; 6; 7; 8; 9; 10]
  /\ list_sum (sleeps (ArchiveStream.run_trace r)) = 55.
Proof.
  destruct backoff_retries_ten_times_then_aborts as (_ & _ & Hrun).
  destruct (Hrun posts0 no_files (std_handle posts0)
              (repeat server_error 11) [bare_answer]
              eq_refl eq_refl eq_refl eq_refl)
    as (Hend & _ & Hdone & Herr & _ & Hsl & Hsum).
  repeat split; assumption.
Defined.

(** ** The sink *)




(** C7.  A stream started with [append] set keeps every byte the sink held
    and writes after it; one started without it empties the sink when it
    opens it, before any fetch, and the sink then holds the records the
    run has written and nothing else. *)
Theorem append_keeps_the_sink_and_write_truncates_it
  (self : ArchiveStream.t) (now : Q) (disk : fs)
  (world : list (net_event (list Item))) :
  let p := ArchiveStream.output_file self in
  let kept := if ArchiveStream.append self then contents disk p
              else EmptyString in
  contents (ArchiveStream.started_disk (ArchiveStream.start self now disk []))
    p = kept
  /\ exists consumed,
       world = (consumed
                ++ ArchiveStream.started_rest
                     (ArchiveStream.start self now disk world))%list
       /\ contents
            (ArchiveStream.started_disk
               (ArchiveStream.start self now disk world)) p
          = kept
            ++ lines (List.concat
                        (written_pages (ArchiveStream.current_date self)
                           consumed)).
Proof.
  cbv zeta. split.
  - destruct (start_sink self now disk []) as (consumed & Hw & Hd & _).
    symmetry in Hw. apply app_eq_nil in Hw as [-> _].
    rewrite Hd. apply append_empty_r.
  - destruct (start_sink self now disk world) as (consumed & Hw & Hd & _).
    exists consumed. split; assumption.
Qed.

(** The two modes on a sink that already holds a line. *)
Lemma append_and_write_on_populated_sink :
  contents
    (ArchiveStream.started_disk
       (ArchiveStream.start (appending posts0) 0 old_sink
          [page_answer [item_at 1]; bare_answer]))
    (ArchiveStream.output_file posts0)
  = contents old_sink (ArchiveStream.output_file posts0) ++ lines [item_at 1]
  /\ contents
       (ArchiveStream.started_disk
          (ArchiveStream.start posts0 0 old_sink
             [page_answer [item_at 1]; bare_answer]))
       (ArchiveStream.output_file posts0)
     = lines [item_at 1]
  /\ contents
       (ArchiveStream.started_disk (ArchiveStream.start posts0 0 old_sink []))
       (ArchiveStream.output_file posts0)
     = EmptyString
  /\ count_char newline
       (contents old_sink (ArchiveStream.output_file posts0)) = 1.
Proof. repeat split; vm_compute; reflexivity. Qed.

(** ** The coordinator *)

(** C8.  [start] of a stream never ends with an exception, whatever its
    fetches did, and so neither does the coordinator.  Once the posts
    stream has ended, in whatever state, the comments stream is started on
    what is left of the network script and the coordinator ends as the
    comments stream does; every request of the posts stream precedes
    every request of the comments stream. *)
Theorem comments_stream_runs_whatever_posts_did
  (posts comments : ArchiveStream.t) (now_posts now_comments : Q) (disk : fs)
  (world : list (net_event (list Item))) :
  let rp := ArchiveStream.start posts now_posts disk world in
  let rc := ArchiveStream.start comments now_comments
              (ArchiveStream.started_disk rp) (ArchiveStream.started_rest rp) in
  let r := CombinedArchiveStream.start
             (CombinedArchiveStream.mk (Some posts) (Some comments))
             now_posts now_comments disk world in
  (forall e, ArchiveStream.started_ending rp <> Propagated e)
  /\ (forall e, CombinedArchiveStream.how r <> Propagated e)
  /\ match ArchiveStream.started_ending rp with
     | Awaiting =>
         CombinedArchiveStream.how r = Awaiting
         /\ CombinedArchiveStream.comments_after r = Some comments
         /\ requests (CombinedArchiveStream.trace r)
            = requests (ArchiveStream.started_trace rp)
     | _ =>
         CombinedArchiveStream.posts_after r
         = Some (ArchiveStream.started_self rp)
         /\ CombinedArchiveStream.comments_after r
            = Some (ArchiveStream.started_self rc)
         /\ CombinedArchiveStream.final_disk r = ArchiveStream.started_disk rc
         /\ CombinedArchiveStream.rest r = ArchiveStream.started_rest rc
         /\ CombinedArchiveStream.how r = ArchiveStream.started_ending rc
         /\ requests (CombinedArchiveStream.trace r)
            = (requests (ArchiveStream.started_trace rp)
               ++ requests (ArchiveStream.started_trace rc))%list
     end.
Proof.
  cbv zeta. unfold CombinedArchiveStream.start.
  cbn [CombinedArchiveStream.posts_stream
       CombinedArchiveStream.comments_stream]. cbv zeta.
  cbn [CombinedArchiveStream.how CombinedArchiveStream.final_disk
       CombinedArchiveStream.rest CombinedArchiveStream.trace
       CombinedArchiveStream.posts_after].
  set (rp := ArchiveStream.start posts now_posts disk world).
  set (rc := ArchiveStream.start comments now_comments
               (ArchiveStream.started_disk rp) (ArchiveStream.started_rest rp)).
  pose proof (start_ending posts now_posts disk world) as Hp. fold rp in Hp.
  pose proof (start_ending comments now_comments
                (ArchiveStream.started_disk rp) (ArchiveStream.started_rest rp))
    as Hc. fold rc in Hc.
  split; [intros e; destruct Hp as [-> | ->]; discriminate|].
  destruct Hp as [-> | ->].
  - cbn [CombinedArchiveStream.how CombinedArchiveStream.final_disk
         CombinedArchiveStream.rest CombinedArchiveStream.trace
         CombinedArchiveStream.posts_after
         CombinedArchiveStream.comments_after].
    split; [intros e; destruct Hc as [-> | ->]; discriminate|].
    repeat split.
    unfold requests. cbn [flat_map List.app].
    rewrite flat_map_app. cbn [flat_map List.app]. rewrite flat_map_app.
    f_equal. destruct (ArchiveStream.started_ending rc);
      cbn [flat_map List.app]; apply app_nil_r.
  - cbn [CombinedArchiveStream.how CombinedArchiveStream.trace
         CombinedArchiveStream.comments_after].
    split; [intros e; discriminate|]. repeat split.
Qed.

(** Scenario E: the posts stream gives up after eleven server errors; the
    comments stream then fetches one page, meets the empty page and is done
    without error, each stream with its own sink. *)
Lemma posts_abort_then_comments_complete :
  let r := CombinedArchiveStream.start
             (CombinedArchiveStream.mk (Some posts0) (Some comments0))
             0 60 old_sink
             (repeat server_error 11
              ++ [page_answer [item_at 1; item_at 2]; bare_answer])%list in
  CombinedArchiveStream.how r = Returned
  /\ option_map (fun s => (DownloadStats.is_done (ArchiveStream.stats s),
                           DownloadStats.has_error (ArchiveStream.stats s),
                           DownloadStats.total_items (ArchiveStream.stats s)))
       (CombinedArchiveStream.posts_after r) = Some (true, true, 0)
  /\ option_map (fun s => (DownloadStats.is_done (ArchiveStream.stats s),
                           DownloadStats.has_error (ArchiveStream.stats s),
                           DownloadStats.total_items (ArchiveStream.stats s)))
       (CombinedArchiveStream.comments_after r) = Some (true, false, 2)
  /\ contents (CombinedArchiveStream.final_disk r)
       (ArchiveStream.output_file posts0) = EmptyString
  /\ contents (CombinedArchiveStream.final_disk r)
       (ArchiveStream.output_file comments0)
     = lines [item_at 1; item_at 2]
  /\ CombinedArchiveStream.rest r = [].
Proof. cbv zeta. repeat split; vm_compute; reflexivity. Qed.

(** ** Malformed answers and short names *)

(** C9.  A 200 answer whose body has neither [error] nor [data] makes
    [_fetch_data] return the empty list, and the loop takes that as the end
    of the data, not as a failure to retry: it marks the stream done and
    returns, printing the completion message, with no failure counted and no
    sleep.  It does not end "without error", though: the error flag and the
    failure counter are left exactly as they were, so a stream that had
    failed just before ends done with [has_error] still set, the [break] of
    the empty-page branch coming before the reset block. *)
Theorem bare_200_answer_ends_the_stream_and_keeps_error_flag
  (self : ArchiveStream.t) (disk : fs) (fh : handle)
  (response : Response (list Item)) (body : Body (list Item))
  (world : list (net_event (list Item))) :
  status_code response = 200%Z ->
  json_body response = Some body ->
  error body = None ->
  data body = None ->
  running self = true ->
  snd (ArchiveStream._fetch_data self (Answer response)) = Ok []
  /\ let r := ArchiveStream._run self disk fh (Answer response :: world) in
     let st := ArchiveStream.stats (ArchiveStream.run_self r) in
     ArchiveStream.run_ending r = Returned
     /\ ArchiveStream.run_rest r = world
     /\ DownloadStats.is_done st = true
     /\ DownloadStats.has_error st
        = DownloadStats.has_error (ArchiveStream.stats self)
     /\ DownloadStats.repeated_error_count st
        = DownloadStats.repeated_error_count (ArchiveStream.stats self)
     /\ ArchiveStream.run_trace r
        = [Get (ArchiveStream.fetch_url self);
           PrintComplete (ArchiveStream.item_type self)].
Proof.
  intros Hstatus Hbody Herr Hdata Hrun.
  assert (Hev : fetch_outcome (Answer response) = Ok []).
  { unfold fetch_outcome, ArchiveStream._fetch_data. cbn [snd].
    rewrite Hstatus, Hbody, Herr, Hdata. reflexivity. }
  split; [rewrite fetch_data_eq; exact Hev|].
  cbv zeta. cbn [ArchiveStream._run].
  unfold running in Hrun. apply negb_true_iff in Hrun. rewrite Hrun.
  rewrite (iteration_data _ _ _ _ _ Hev). cbv zeta. rewrite on_data_empty.
  turn_cbn; run_cbn.
  repeat split.
Qed.

Lemma bare_200_answer_after_failures_ends_done_with_error :
  running (after_failures posts0 3) = true
  /\ DownloadStats.has_error (ArchiveStream.stats (after_failures posts0 3))
     = true
  /\ let r := ArchiveStream._run (after_failures posts0 3) no_files
                (std_handle posts0) [bare_answer; server_error] in
     ArchiveStream.run_ending r = Returned
     /\ ArchiveStream.run_rest r = [server_error]
     /\ DownloadStats.is_done (ArchiveStream.stats (ArchiveStream.run_self r))
        = true
     /\ DownloadStats.has_error
          (ArchiveStream.stats (ArchiveStream.run_self r)) = true
     /\ DownloadStats.repeated_error_count
          (ArchiveStream.stats (ArchiveStream.run_self r)) = 3.
Proof.
  split; [reflexivity|]. split; [reflexivity|]. cbv zeta.
  destruct (bare_200_answer_ends_the_stream_and_keeps_error_flag
              (after_failures posts0 3) no_files (std_handle posts0)
              (mkResponse 200 "{}" (Some (mkBody None None)))
              (mkBody None None) [server_error]
              eq_refl eq_refl eq_refl eq_refl eq_refl)
    as (_ & Hend & Hrest & Hdone & Herr & Hcount & _).
  repeat split; assumption.
Defined.

(** C10.  A name of fewer than two characters makes [validate_name] raise
    [ValueError] with no request made, whatever the network would answer. *)
Theorem short_name_is_rejected_before_any_request
  (iso_to_ms : string -> option Z) (name : string)
  (download_type : DownloadType)
  (min_answer : net_event json) (info_answer : net_event (list Dict)) :
  String.length name < 2 ->
  validate_name iso_to_ms name download_type min_answer info_answer
  = ([], Raise (ValueError "Name must be at least 2 characters long"))
  /\ requests
       (fst (validate_name iso_to_ms name download_type min_answer
               info_answer)) = [].
Proof.
  intros Hshort. apply Nat.ltb_lt in Hshort.
  unfold validate_name. rewrite Hshort.
  split; reflexivity.
Qed.

Lemma one_letter_name_is_rejected :
  String.length "r" < 2
  /\ validate_name (fun _ => Some 1201219200000%Z) "r" SUBREDDIT
       (Answer (mkResponse 200 "{...}"
                  (Some (mkBody None (Some (JStr "2008-01-25T00:00:00.000Z"))))))
       (Answer (mkResponse 200 "{...}" (Some (mkBody None (Some [[]])))))
     = ([], Raise (ValueError "Name must be at least 2 characters long")).
Proof.
  split; [repeat constructor|].
  apply (short_name_is_rejected_before_any_request
           (fun _ => Some 1201219200000%Z) "r" SUBREDDIT).
  repeat constructor.
Defined.

(** The same two answers let a name of two letters through, with both
    requests made in order. *)
Lemma two_letter_name_is_looked_up :
  validate_name (fun _ => Some 1201219200000%Z) "ml" SUBREDDIT
    (Answer (mkResponse 200 "{...}"
               (Some (mkBody None (Some (JStr "2008-01-25T00:00:00.000Z"))))))
    (Answer (mkResponse 200 "{...}" (Some (mkBody None (Some [[]])))))
  = ([Get (min_url "ml" SUBREDDIT); Get (info_url "ml" SUBREDDIT)],
     Ok (1201219200000%Z, [])).
Proof. reflexivity. Qed.

(** * Further properties of the code *)

(** ** Texts *)

Lemma append_inv_head (a x y : string) : a ++ x = a ++ y -> x = y.
Proof.
  induction a as [|c a IH]; cbn [String.append]; intros H; [exact H|].
  injection H as H. apply IH, H.
Qed.

Lemma length_append (a b : string) :
  String.length (a ++ b) = String.length a + String.length b.
Proof.
  induction a as [|c a IH]; cbn [String.append String.length];
    [reflexivity|now rewrite IH].
Qed.

Lemma append_inv_tail (b : string) :
  forall x y : string, x ++ b = y ++ b -> x = y.
Proof.
  induction x as [|c x IH]; intros [|d y] H.
  - reflexivity.
  - apply (f_equal String.length) in H. rewrite !length_append in H.
    cbn [String.length] in H. lia.
  - apply (f_equal String.length) in H. rewrite !length_append in H.
    cbn [String.length] in H. lia.
  - cbn [String.append] in H. injection H as Hc H.
    rewrite Hc, (IH y H). reflexivity.
Qed.

(** [str] of an [int] tells the integers apart. *)
Lemma str_of_Z_inj (n m : Z) : str_of_Z n = str_of_Z m -> n = m.
Proof.
  unfold str_of_Z. intros H. apply DecimalZ.to_int_inj.
  assert (Hnn : forall z, Z.to_int z <> Pos Nil /\ Z.to_int z <> Neg Nil).
  { intros [|p|p]; cbn; split; try discriminate;
      intros [= Hp]; exact (DecimalPos.Unsigned.to_uint_nonnil p Hp). }
  apply (f_equal NilZero.int_of_string) in H.
  destruct (Hnn n) as [Hn1 Hn2]. destruct (Hnn m) as [Hm1 Hm2].
  rewrite !NilZero.isi in H by assumption.
  injection H as H. exact H.
Qed.

Lemma fetch_url_inj (a b : ArchiveStream.t) :
  ArchiveStream.url a = ArchiveStream.url b ->
  ArchiveStream.fetch_url a = ArchiveStream.fetch_url b ->
  ArchiveStream.current_date a = ArchiveStream.current_date b.
Proof.
  unfold ArchiveStream.fetch_url. intros Hu H. rewrite Hu in H.
  apply append_inv_head, append_inv_head, append_inv_tail in H.
  apply str_of_Z_inj, H.
Qed.

(** ** What a turn keeps *)

Lemma on_data_keeps (self : ArchiveStream.t) (disk : fs) (fh : handle)
  (page : list Item) :
  let s' := ArchiveStream.turn_self (ArchiveStream.on_data self disk fh page) in
  ArchiveStream.url s' = ArchiveStream.url self
  /\ ArchiveStream.output_file s' = ArchiveStream.output_file self
  /\ ArchiveStream.item_type s' = ArchiveStream.item_type self
  /\ ArchiveStream.append s' = ArchiveStream.append self
  /\ DownloadStats.start_time (ArchiveStream.stats s')
     = DownloadStats.start_time (ArchiveStream.stats self)
  /\ DownloadStats.is_paused (ArchiveStream.stats s')
     = DownloadStats.is_paused (ArchiveStream.stats self).
Proof.
  destruct self as [u sd cd o it ap [ti st rt dt c p d he]].
  destruct page as [|first rest]; [repeat split|].
  unfold ArchiveStream.on_data. cbv zeta.
  destruct (fromtimestamp_ok _).
  - destruct he; repeat split.
  - unfold ArchiveStream.on_exception. cbv zeta.
    destruct (Qgtb _ _); repeat split.
Qed.

Lemma on_exception_keeps (self : ArchiveStream.t) (disk : fs) (fh : handle)
  (e : exn) :
  let s' := ArchiveStream.turn_self
              (ArchiveStream.on_exception self disk fh e) in
  ArchiveStream.url s' = ArchiveStream.url self
  /\ ArchiveStream.output_file s' = ArchiveStream.output_file self
  /\ ArchiveStream.item_type s' = ArchiveStream.item_type self
  /\ ArchiveStream.append s' = ArchiveStream.append self
  /\ DownloadStats.start_time (ArchiveStream.stats s')
     = DownloadStats.start_time (ArchiveStream.stats self)
  /\ DownloadStats.is_paused (ArchiveStream.stats s')
     = DownloadStats.is_paused (ArchiveStream.stats self).
Proof.
  unfold ArchiveStream.on_exception. cbv zeta.
  destruct (Qgtb _ _); repeat split.
Qed.

Lemma iteration_keeps (self : ArchiveStream.t) (disk : fs) (fh : handle)
  (ev : net_event (list Item)) :
  let s' := ArchiveStream.turn_self (ArchiveStream.iteration self disk fh ev) in
  ArchiveStream.url s' = ArchiveStream.url self
  /\ ArchiveStream.output_file s' = ArchiveStream.output_file self
  /\ ArchiveStream.item_type s' = ArchiveStream.item_type self
  /\ ArchiveStream.append s' = ArchiveStream.append self
  /\ DownloadStats.start_time (ArchiveStream.stats s')
     = DownloadStats.start_time (ArchiveStream.stats self)
  /\ DownloadStats.is_paused (ArchiveStream.stats s')
     = DownloadStats.is_paused (ArchiveStream.stats self).
Proof.
  destruct (fetch_outcome ev) as [page|e] eqn:Hev.
  - rewrite (iteration_data _ _ _ _ _ Hev). cbv zeta. turn_cbn.
    apply on_data_keeps.
  - destruct (is_Exception e) eqn:He.
    + rewrite (iteration_exception _ _ _ _ _ Hev He). cbv zeta. turn_cbn.
      apply on_exception_keeps.
    + rewrite (iteration_unwind _ _ _ _ _ Hev He). turn_cbn. repeat split.
Qed.

(** ** [_fetch_data] *)

(** X1.  [_fetch_data] returns a page exactly when the request is answered
    with status 200, the body parses and its [error] member is absent or
    falsy; it then returns the [data] member, or the empty list when the
    body has none.  Anything else raises. *)
Theorem fetch_data_succeeds_exactly_on_clean_200
  (self : ArchiveStream.t) (ev : net_event (list Item)) (page : list Item) :
  snd (ArchiveStream._fetch_data self ev) = Ok page
  <-> exists response body,
        ev = Answer response
        /\ status_code response = 200%Z
        /\ json_body response = Some body
        /\ match error body with
           | Some err => truthy err = false
           | None => True
           end
        /\ page = match data body with Some d => d | None => [] end.
Proof.
  rewrite fetch_data_eq. cbn [snd]. unfold fetch_outcome.
  unfold ArchiveStream._fetch_data. cbn [snd]. split.
  - destruct ev as [response|e]; [|discriminate].
    destruct (Z.eqb_spec (status_code response) 200) as [Hs|Hs];
      cbn [negb]; [|discriminate].
    destruct (json_body response) as [body|] eqn:Hb; [|discriminate].
    destruct (error body) as [err|] eqn:He.
    + destruct (truthy err) eqn:Ht; [discriminate|].
      intros [= <-]. exists response, body. rewrite He. auto.
    + intros [= <-]. exists response, body. rewrite He. auto.
  - intros (response & body & -> & Hs & Hb & He & ->).
    rewrite Hs, Hb. cbn [Z.eqb Pos.eqb negb].
    destruct (error body) as [err|]; [rewrite He|]; reflexivity.
Qed.

(** ** The loop *)

(** X2.  A failed fetch changes nothing but the backoff state: cursor,
    item count, date shown, sink and file handle are as before, so the
    retry asks for the same address again. *)
Theorem failed_fetch_leaves_cursor_and_sink_untouched
  (self : ArchiveStream.t) (disk : fs) (fh : handle)
  (ev : net_event (list Item)) :
  fetch_fails ev = true ->
  let r := ArchiveStream.iteration self disk fh ev in
  let s' := ArchiveStream.turn_self r in
  ArchiveStream.current_date s' = ArchiveStream.current_date self
  /\ ArchiveStream.fetch_url s' = ArchiveStream.fetch_url self
  /\ DownloadStats.total_items (ArchiveStream.stats s')
     = DownloadStats.total_items (ArchiveStream.stats self)
  /\ DownloadStats.current_date (ArchiveStream.stats s')
     = DownloadStats.current_date (ArchiveStream.stats self)
  /\ ArchiveStream.turn_disk r = disk
  /\ ArchiveStream.turn_handle r = fh.
Proof.
  intros Hev. destruct (fetch_fails_raise ev Hev) as (e & Hout & He).
  cbv zeta. rewrite (iteration_exception _ _ _ _ _ Hout He). cbv zeta.
  turn_cbn. unfold ArchiveStream.on_exception. cbv zeta.
  destruct (Qgtb _ _); repeat split.
Qed.

Lemma failed_fetch_example :
  fetch_fails server_error = true
  /\ ArchiveStream.fetch_url
       (ArchiveStream.turn_self
          (ArchiveStream.iteration (at_cursor posts0 2000) old_sink
             (std_handle posts0) server_error))
     = ArchiveStream.fetch_url (at_cursor posts0 2000)
  /\ ArchiveStream.turn_disk
       (ArchiveStream.iteration (at_cursor posts0 2000) old_sink
          (std_handle posts0) server_error)
     = old_sink.
Proof.
  split; [reflexivity|].
  destruct (failed_fetch_leaves_cursor_and_sink_untouched
              (at_cursor posts0 2000) old_sink (std_handle posts0)
              server_error eq_refl) as (_ & Hu & _ & _ & Hd & _).
  split; assumption.
Defined.

(** X3.  A page with items always moves the cursor, so the next request
    never repeats the address of the one just answered. *)
Theorem page_with_items_changes_the_next_request
  (self : ArchiveStream.t) (disk : fs) (fh : handle)
  (ev : net_event (list Item)) (page : list Item) :
  fetch_outcome ev = Ok page ->
  page <> [] ->
  let s' := ArchiveStream.turn_self (ArchiveStream.iteration self disk fh ev) in
  ArchiveStream.current_date s' <> ArchiveStream.current_date self
  /\ ArchiveStream.fetch_url s' <> ArchiveStream.fetch_url self.
Proof.
  intros Hev Hne. cbv zeta.
  assert (Hc : ArchiveStream.current_date
                 (ArchiveStream.turn_self
                    (ArchiveStream.iteration self disk fh ev))
               <> ArchiveStream.current_date self).
  { rewrite (iteration_data _ _ _ _ _ Hev). cbv zeta. turn_cbn.
    destruct page as [|first rest]; [congruence|].
    rewrite on_data_cursor. cbv zeta.
    destruct (Z.eqb_spec (created_utc_ms (last rest first))
                (ArchiveStream.current_date self)); lia. }
  split; [exact Hc|]. intros Hu. apply Hc.
  apply fetch_url_inj; [|exact Hu].
  apply (iteration_keeps self disk fh ev).
Qed.

Lemma page_with_items_example :
  fetch_outcome (page_answer [item_at 500; item_at 500])
  = Ok [item_at 500; item_at 500]
  /\ ArchiveStream.fetch_url
       (ArchiveStream.turn_self
          (ArchiveStream.iteration (at_cursor posts0 500000) no_files
             (std_handle posts0) (page_answer [item_at 500; item_at 500])))
     <> ArchiveStream.fetch_url (at_cursor posts0 500000).
Proof.
  split; [reflexivity|].
  apply (page_with_items_changes_the_next_request
           (at_cursor posts0 500000) no_files (std_handle posts0)
           (page_answer [item_at 500; item_at 500])
           [item_at 500; item_at 500]); [reflexivity|discriminate].
Defined.

(** X19.  A page whose new cursor [datetime.fromtimestamp] cannot date is
    lost: its items are counted in [total_items] and the cursor moves to its
    last item, but nothing reaches the sink and no progress is printed; the
    turn counts as one more failed attempt, and the retry asks for what
    follows the new cursor, not for the page again. *)
Theorem undatable_page_is_counted_and_never_written
  (self : ArchiveStream.t) (disk : fs) (fh : handle)
  (ev : net_event (list Item)) (first : Item) (rest : list Item) :
  fetch_outcome ev = Ok (first :: rest) ->
  fromtimestamp_ok
    (next_cursor (ArchiveStream.current_date self) (first :: rest)) = false ->
  let r := ArchiveStream.iteration self disk fh ev in
  let s' := ArchiveStream.turn_self r in
  ArchiveStream.turn_disk r = disk
  /\ ArchiveStream.turn_handle r = fh
  /\ DownloadStats.total_items (ArchiveStream.stats s')
     = DownloadStats.total_items (ArchiveStream.stats self)
       + S (List.length rest)
  /\ ArchiveStream.current_date s'
     = next_cursor (ArchiveStream.current_date self) (first :: rest)
  /\ ArchiveStream.fetch_url s' <> ArchiveStream.fetch_url self
  /\ DownloadStats.has_error (ArchiveStream.stats s') = true
  /\ DownloadStats.repeated_error_count (ArchiveStream.stats s')
     = S (DownloadStats.repeated_error_count (ArchiveStream.stats self))
  /\ (forall st, ~ In (PrintProgress st) (ArchiveStream.turn_trace r)).
Proof.
  intros Hev Hok. cbv zeta.
  assert (Hurl : ArchiveStream.fetch_url
                   (ArchiveStream.turn_self
                      (ArchiveStream.iteration self disk fh ev))
                 <> ArchiveStream.fetch_url self).
  { intros Hu.
    assert (Hc : ArchiveStream.current_date
                   (ArchiveStream.turn_self
                      (ArchiveStream.iteration self disk fh ev))
                 = ArchiveStream.current_date self).
    { apply fetch_url_inj; [|exact Hu].
      apply (iteration_keeps self disk fh ev). }
    revert Hc. rewrite (iteration_data _ _ _ _ _ Hev). cbv zeta. turn_cbn.
    rewrite on_data_cursor. cbv zeta.
    destruct (Z.eqb_spec (created_utc_ms (last rest first))
                (ArchiveStream.current_date self)); lia. }
  revert Hurl.
  rewrite (iteration_data _ _ _ _ _ Hev). cbv zeta. turn_cbn.
  rewrite (on_data_undatable self disk fh first rest Hok).
  unfold ArchiveStream.on_exception. cbv zeta.
  destruct (Qgtb _ _); turn_cbn; intros Hurl;
    (split; [reflexivity|]); (split; [reflexivity|]);
    (split; [reflexivity|]); (split; [reflexivity|]);
    (split; [exact Hurl|]); (split; [reflexivity|]);
    (split; [reflexivity|]);
    intros st H; cbn [In] in H;
    repeat (destruct H as [H|H]; [discriminate H|]); destruct H.
Qed.

Lemma undatable_page_example :
  fetch_outcome (page_answer [item_at 2; item_at 253402300800])
  = Ok [item_at 2; item_at 253402300800]
  /\ fromtimestamp_ok
       (next_cursor (ArchiveStream.current_date posts0)
          [item_at 2; item_at 253402300800]) = false
  /\ ArchiveStream.turn_disk
       (ArchiveStream.iteration posts0 old_sink (std_handle posts0)
          (page_answer [item_at 2; item_at 253402300800])) = old_sink
  /\ DownloadStats.total_items
       (ArchiveStream.stats
          (ArchiveStream.turn_self
             (ArchiveStream.iteration posts0 old_sink (std_handle posts0)
                (page_answer [item_at 2; item_at 253402300800]))))
     = 2
  /\ ArchiveStream.current_date
       (ArchiveStream.turn_self
          (ArchiveStream.iteration posts0 old_sink (std_handle posts0)
             (page_answer [item_at 2; item_at 253402300800])))
     = 253402300800000%Z.
Proof.
  split; [reflexivity|]. split; [reflexivity|].
  destruct (undatable_page_is_counted_and_never_written
              posts0 old_sink (std_handle posts0)
              (page_answer [item_at 2; item_at 253402300800])
              (item_at 2) [item_at 253402300800] eq_refl eq_refl)
    as (Hd & _ & Ht & Hc & _).
  split; [exact Hd|]. split; [rewrite Ht|rewrite Hc]; reflexivity.
Defined.

Lemma on_exception_backoff_bounds (self : ArchiveStream.t) (disk : fs)
  (fh : handle) (e : exn) :
  DownloadStats.repeated_error_count (ArchiveStream.stats self) <= 10 ->
  let r := ArchiveStream.on_exception self disk fh e in
  let c := DownloadStats.repeated_error_count
             (ArchiveStream.stats (ArchiveStream.turn_self r)) in
  Forall (fun n => 1 <= n <= 10) (sleeps (ArchiveStream.turn_trace r))
  /\ c <= 11
  /\ (ArchiveStream.turn_control r = ArchiveStream.Next -> c <= 10).
Proof.
  intros Hc. cbv zeta.
  set (n := S (DownloadStats.repeated_error_count (ArchiveStream.stats self))).
  destruct (le_lt_dec n 10) as [Hn|Hn].
  - rewrite (on_exception_retry self disk fh e Hn). turn_cbn.
    fold n. cbn.
    split; [constructor; [subst n; lia|constructor]|].
    split; [lia|intros _; exact Hn].
  - rewrite (on_exception_abort self disk fh e Hn). turn_cbn.
    fold n. cbn.
    split; [constructor|]. split; [subst n; lia|discriminate].
Qed.

Lemma iteration_backoff_bounds (self : ArchiveStream.t) (disk : fs)
  (fh : handle) (ev : net_event (list Item)) :
  DownloadStats.repeated_error_count (ArchiveStream.stats self) <= 10 ->
  let r := ArchiveStream.iteration self disk fh ev in
  let c := DownloadStats.repeated_error_count
             (ArchiveStream.stats (ArchiveStream.turn_self r)) in
  Forall (fun n => 1 <= n <= 10) (sleeps (ArchiveStream.turn_trace r))
  /\ c <= 11
  /\ (ArchiveStream.turn_control r = ArchiveStream.Next -> c <= 10).
Proof.
  intros Hc. cbv zeta.
  destruct (fetch_outcome ev) as [page|e] eqn:Hev.
  - rewrite (iteration_data _ _ _ _ _ Hev). cbv zeta. turn_cbn.
    destruct page as [|first rest].
    + rewrite on_data_empty. turn_cbn.
      split; [constructor|]. split; [cbn; lia|discriminate].
    + destruct (fromtimestamp_ok
                  (next_cursor (ArchiveStream.current_date self)
                     (first :: rest))) eqn:Hok.
      * destruct (on_data_resets self disk fh first rest Hok) as (H0 & _ & _).
        rewrite H0. split; [|split; [lia|intros _; lia]].
        unfold ArchiveStream.on_data. cbv zeta.
        unfold next_cursor in Hok. cbv zeta in Hok. rewrite Hok.
        unfold flush. turn_cbn. constructor.
      * rewrite (on_data_undatable self disk fh first rest Hok).
        apply (on_exception_backoff_bounds _ disk fh
                 (ValueError "year is out of range")).
        exact Hc.
  - destruct (is_Exception e) eqn:He.
    + rewrite (iteration_exception _ _ _ _ _ Hev He). cbv zeta. turn_cbn.
      apply (on_exception_backoff_bounds self disk fh e Hc).
    + rewrite (iteration_unwind _ _ _ _ _ Hev He). turn_cbn.
      split; [constructor|]. split; [lia|discriminate].
Qed.

(** X5.  A stream that has failed at most ten times in a row never sleeps
    less than one second or more than ten at a time, however long it runs,
    and its failure counter never passes eleven. *)
Theorem backoff_sleeps_stay_within_ten_seconds
  (world : list (net_event (list Item))) (self : ArchiveStream.t) (disk : fs)
  (fh : handle) :
  DownloadStats.repeated_error_count (ArchiveStream.stats self) <= 10 ->
  let r := ArchiveStream._run self disk fh world in
  Forall (fun n => 1 <= n <= 10) (sleeps (ArchiveStream.run_trace r))
  /\ DownloadStats.repeated_error_count
       (ArchiveStream.stats (ArchiveStream.run_self r)) <= 11.
Proof.
  cbv zeta. revert self disk fh.
  induction world as [|ev world IH]; intros self disk fh Hc;
    cbn [ArchiveStream._run]; destruct (_ || _);
    try (run_cbn; split; [constructor|lia]).
  cbv zeta.
  destruct (iteration_backoff_bounds self disk fh ev Hc) as (Hs & H11 & Hn).
  destruct (ArchiveStream.turn_control _); run_cbn.
  - destruct (IH (ArchiveStream.turn_self
                    (ArchiveStream.iteration self disk fh ev))
                (ArchiveStream.turn_disk
                    (ArchiveStream.iteration self disk fh ev))
                (ArchiveStream.turn_handle
                    (ArchiveStream.iteration self disk fh ev))
                (Hn eq_refl)) as [Hs' Hc'].
    split; [|exact Hc']. rewrite sleeps_app. apply Forall_app. split; assumption.
  - split; assumption.
  - split; assumption.
Qed.

Lemma backoff_sleeps_example :
  DownloadStats.repeated_error_count (ArchiveStream.stats posts0) <= 10
  /\ Forall (fun n => 1 <= n <= 10)
       (sleeps
          (ArchiveStream.run_trace
             (ArchiveStream._run posts0 no_files (std_handle posts0)
                (repeat server_error 4
                 ++ page_answer [item_at 9] :: repeat server_error 11)%list))).
Proof.
  split; [repeat constructor|].
  apply (backoff_sleeps_stay_within_ten_seconds
           (repeat server_error 4
            ++ page_answer [item_at 9] :: repeat server_error 11)%list
           posts0 no_files (std_handle posts0)).
  repeat constructor.
Defined.

Lemma on_exception_break_is_done (self : ArchiveStream.t) (disk : fs)
  (fh : handle) (e : exn) :
  ArchiveStream.turn_control (ArchiveStream.on_exception self disk fh e)
  = ArchiveStream.Break ->
  DownloadStats.is_done
    (ArchiveStream.stats
       (ArchiveStream.turn_self (ArchiveStream.on_exception self disk fh e)))
  = true.
Proof.
  unfold ArchiveStream.on_exception. cbv zeta.
  destruct (Qgtb _ _); [reflexivity|discriminate].
Qed.

Lemma iteration_break_is_done (self : ArchiveStream.t) (disk : fs)
  (fh : handle) (ev : net_event (list Item)) :
  ArchiveStream.turn_control (ArchiveStream.iteration self disk fh ev)
  = ArchiveStream.Break ->
  DownloadStats.is_done
    (ArchiveStream.stats
       (ArchiveStream.turn_self (ArchiveStream.iteration self disk fh ev)))
  = true.
Proof.
  destruct (fetch_outcome ev) as [page|e] eqn:Hev.
  - rewrite (iteration_data _ _ _ _ _ Hev). cbv zeta. turn_cbn.
    destruct page as [|first rest]; [reflexivity|].
    destruct (fromtimestamp_ok
                (next_cursor (ArchiveStream.current_date self)
                   (first :: rest))) eqn:Hok.
    + destruct (on_data_resets self disk fh first rest Hok) as (_ & _ & Hc).
      rewrite Hc. discriminate.
    + rewrite (on_data_undatable self disk fh first rest Hok).
      apply on_exception_break_is_done.
  - destruct (is_Exception e) eqn:He.
    + rewrite (iteration_exception _ _ _ _ _ Hev He). cbv zeta. turn_cbn.
      apply on_exception_break_is_done.
    + rewrite (iteration_unwind _ _ _ _ _ Hev He). discriminate.
Qed.

Lemma run_returned_is_over (world : list (net_event (list Item))) :
  forall (self : ArchiveStream.t) (disk : fs) (fh : handle),
  ArchiveStream.run_ending (ArchiveStream._run self disk fh world) = Returned ->
  DownloadStats.is_paused
    (ArchiveStream.stats
       (ArchiveStream.run_self (ArchiveStream._run self disk fh world)))
  || DownloadStats.is_done
       (ArchiveStream.stats
          (ArchiveStream.run_self (ArchiveStream._run self disk fh world)))
  = true.
Proof.
  induction world as [|ev world IH]; intros self disk fh;
    cbn [ArchiveStream._run]; destruct (_ || _) eqn:Hloop;
    try (intros _; exact Hloop); try discriminate.
  cbv zeta.
  destruct (ArchiveStream.turn_control _) eqn:Hc; run_cbn.
  - apply IH.
  - intros _. rewrite (iteration_break_is_done _ _ _ _ Hc).
    apply orb_true_r.
  - discriminate.
Qed.

(** X6.  [start] returns only with the stream paused or done: while the
    stream is neither, it is still in its loop. *)
Theorem start_returns_only_paused_or_done
  (self : ArchiveStream.t) (now : Q) (disk : fs)
  (world : list (net_event (list Item))) :
  ArchiveStream.started_ending (ArchiveStream.start self now disk world)
  = Returned ->
  DownloadStats.is_paused
    (ArchiveStream.stats
       (ArchiveStream.started_self (ArchiveStream.start self now disk world)))
  = true
  \/ DownloadStats.is_done
       (ArchiveStream.stats
          (ArchiveStream.started_self
             (ArchiveStream.start self now disk world)))
     = true.
Proof.
  unfold ArchiveStream.start, open_. cbv zeta.
  match goal with
  | |- context [ArchiveStream._run ?s ?d ?h world] =>
      pose proof (run_returned_is_over world s d h) as Hover;
      pose proof (run_propagates_interrupt world s d h) as Hk;
      destruct (ArchiveStream.run_ending (ArchiveStream._run s d h world))
        as [|e|]
  end.
  - intros _. apply orb_true_iff, Hover. reflexivity.
  - rewrite (Hk e eq_refl). intros _. left. reflexivity.
  - discriminate.
Qed.

Lemma start_returns_example :
  ArchiveStream.started_ending
    (ArchiveStream.start posts0 1 no_files
       [page_answer [item_at 4]; Fails KeyboardInterrupt; bare_answer])
  = Returned
  /\ DownloadStats.is_paused
       (ArchiveStream.stats
          (ArchiveStream.started_self
             (ArchiveStream.start posts0 1 no_files
                [page_answer [item_at 4]; Fails KeyboardInterrupt;
                 bare_answer])))
     = true.
Proof.
  split; [reflexivity|].
  destruct (start_returns_only_paused_or_done posts0 1 no_files
              [page_answer [item_at 4]; Fails KeyboardInterrupt; bare_answer]
              eq_refl) as [H|H]; [exact H|discriminate H].
Defined.

(** ** Starting and restarting *)

(** X7.  [start] does not look at why a stream is done: started again, a
    done stream makes no request and returns at once, and unless it
    appends it has by then emptied its sink. *)
Theorem restarting_a_done_stream_fetches_nothing
  (self : ArchiveStream.t) (now : Q) (disk : fs)
  (world : list (net_event (list Item))) :
  DownloadStats.is_done (ArchiveStream.stats self) = true ->
  let r := ArchiveStream.start self now disk world in
  ArchiveStream.started_ending r = Returned
  /\ ArchiveStream.started_trace r = []
  /\ ArchiveStream.started_rest r = world
  /\ contents (ArchiveStream.started_disk r) (ArchiveStream.output_file self)
     = (if ArchiveStream.append self
        then contents disk (ArchiveStream.output_file self)
        else EmptyString).
Proof.
  intros Hdone. cbv zeta. unfold ArchiveStream.start, open_. cbv zeta.
  assert (Hloop : forall d h,
             ArchiveStream._run
               (ArchiveStream.set_stats self
                  (DownloadStats.set_is_paused
                     (DownloadStats.set_start_time (ArchiveStream.stats self)
                        now) false)) d h world
             = ArchiveStream.mkRun
                 (ArchiveStream.set_stats self
                    (DownloadStats.set_is_paused
                       (DownloadStats.set_start_time
                          (ArchiveStream.stats self) now) false))
                 d h [] world Returned).
  { intros d h. destruct world; cbn [ArchiveStream._run];
      cbn [ArchiveStream.stats ArchiveStream.set_stats
           DownloadStats.is_paused DownloadStats.is_done
           DownloadStats.set_is_paused DownloadStats.set_start_time];
      rewrite Hdone; reflexivity. }
  rewrite Hloop. run_cbn.
  cbn [ArchiveStream.started_ending ArchiveStream.started_trace
       ArchiveStream.started_rest ArchiveStream.started_disk].
  repeat split.
  unfold close, flush. cbn [fst path buffer ArchiveStream.output_file
                            ArchiveStream.set_stats].
  rewrite !contents_fs_set, append_empty_r.
  destruct (ArchiveStream.append self); reflexivity.
Qed.

Lemma restarting_a_done_stream_example :
  DownloadStats.is_done
    (ArchiveStream.stats
       (ArchiveStream.set_stats posts0
          (DownloadStats.set_is_done (ArchiveStream.stats posts0) true)))
  = true
  /\ requests
       (ArchiveStream.started_trace
          (ArchiveStream.start
             (ArchiveStream.set_stats posts0
                (DownloadStats.set_is_done (ArchiveStream.stats posts0) true))
             1 old_sink [page_answer [item_at 4]])) = []
  /\ contents
       (ArchiveStream.started_disk
          (ArchiveStream.start
             (ArchiveStream.set_stats posts0
                (DownloadStats.set_is_done (ArchiveStream.stats posts0) true))
             1 old_sink [page_answer [item_at 4]]))
       (ArchiveStream.output_file posts0) = EmptyString.
Proof.
  split; [reflexivity|].
  destruct (restarting_a_done_stream_fetches_nothing
              (ArchiveStream.set_stats posts0
                 (DownloadStats.set_is_done (ArchiveStream.stats posts0) true))
              1 old_sink [page_answer [item_at 4]] eq_refl)
    as (_ & Htr & _ & Hc).
  split; [rewrite Htr; reflexivity|exact Hc].
Defined.

(** X8.  A [KeyboardInterrupt] during the first request of a running
    stream is swallowed by [start]: it returns with the stream paused and
    not done, counters and cursor as they were, and nothing written. *)
Theorem interrupt_pauses_the_stream
  (self : ArchiveStream.t) (now : Q) (disk : fs)
  (world : list (net_event (list Item))) :
  DownloadStats.is_done (ArchiveStream.stats self) = false ->
  let r := ArchiveStream.start self now disk
             (Fails KeyboardInterrupt :: world) in
  let st := ArchiveStream.stats (ArchiveStream.started_self r) in
  ArchiveStream.started_ending r = Returned
  /\ ArchiveStream.started_rest r = world
  /\ DownloadStats.is_paused st = true
  /\ DownloadStats.is_done st = false
  /\ DownloadStats.has_error st
     = DownloadStats.has_error (ArchiveStream.stats self)
  /\ DownloadStats.repeated_error_count st
     = DownloadStats.repeated_error_count (ArchiveStream.stats self)
  /\ ArchiveStream.current_date (ArchiveStream.started_self r)
     = ArchiveStream.current_date self
  /\ ArchiveStream.started_trace r
     = [Get (ArchiveStream.fetch_url self);
        PrintInterrupted (ArchiveStream.item_type self)]
  /\ contents (ArchiveStream.started_disk r) (ArchiveStream.output_file self)
     = (if ArchiveStream.append self
        then contents disk (ArchiveStream.output_file self)
        else EmptyString).
Proof.
  intros Hdone. cbv zeta. unfold ArchiveStream.start, open_. cbv zeta.
  cbn [ArchiveStream._run].
  cbn [ArchiveStream.stats ArchiveStream.set_stats
       DownloadStats.is_paused DownloadStats.is_done
       DownloadStats.set_is_paused DownloadStats.set_start_time].
  rewrite Hdone. cbn [orb]. cbv zeta.
  rewrite (iteration_unwind _ _ _ (Fails KeyboardInterrupt) KeyboardInterrupt
             eq_refl eq_refl).
  turn_cbn. run_cbn.
  cbn [ArchiveStream.started_ending ArchiveStream.started_trace
       ArchiveStream.started_rest ArchiveStream.started_disk
       ArchiveStream.started_self].
  repeat split; try reflexivity.
  - cbn [ArchiveStream.stats ArchiveStream.set_stats DownloadStats.is_done
         DownloadStats.set_is_paused DownloadStats.set_start_time].
    exact Hdone.
  - unfold close, flush. cbn [fst path buffer ArchiveStream.output_file
                              ArchiveStream.set_stats].
    rewrite !contents_fs_set, append_empty_r.
    destruct (ArchiveStream.append self); reflexivity.
Qed.

Lemma interrupt_pauses_example :
  DownloadStats.is_done (ArchiveStream.stats (after_failures posts0 2)) = false
  /\ DownloadStats.is_paused
       (ArchiveStream.stats
          (ArchiveStream.started_self
             (ArchiveStream.start (after_failures posts0 2) 1 no_files
                [Fails KeyboardInterrupt; bare_answer]))) = true
  /\ ArchiveStream.started_rest
       (ArchiveStream.start (after_failures posts0 2) 1 no_files
          [Fails KeyboardInterrupt; bare_answer]) = [bare_answer].
Proof.
  split; [reflexivity|].
  destruct (interrupt_pauses_the_stream (after_failures posts0 2) 1 no_files
              [bare_answer] eq_refl) as (_ & Hrest & Hp & _).
  split; assumption.
Defined.

(** ** Other files *)

Lemma fs_set_other (disk : fs) (p c q : string) :
  q <> p -> fs_set disk p c q = disk q.
Proof.
  intros H. unfold fs_set. apply String.eqb_neq in H. rewrite H. reflexivity.
Qed.

Lemma write_items_path (page : list Item) (h : handle) :
  path (write_items h page) = path h.
Proof. apply write_items_buffer. Qed.

Lemma iteration_frame (self : ArchiveStream.t) (disk : fs) (fh : handle)
  (ev : net_event (list Item)) (q : string) :
  q <> path fh ->
  ArchiveStream.turn_disk (ArchiveStream.iteration self disk fh ev) q = disk q
  /\ path (ArchiveStream.turn_handle (ArchiveStream.iteration self disk fh ev))
     = path fh.
Proof.
  intros Hq. destruct (fetch_outcome ev) as [page|e] eqn:Hev.
  - rewrite (iteration_data _ _ _ _ _ Hev). cbv zeta. turn_cbn.
    destruct page as [|first rest]; [split; reflexivity|].
    destruct (fromtimestamp_ok
                (next_cursor (ArchiveStream.current_date self)
                   (first :: rest))) eqn:Hok.
    + unfold ArchiveStream.on_data. cbv zeta.
      unfold next_cursor in Hok. cbv zeta in Hok. rewrite Hok.
      unfold flush. turn_cbn.
      cbn [path]. rewrite write_items_path.
      split; [apply fs_set_other, Hq|reflexivity].
    + rewrite (on_data_undatable self disk fh first rest Hok).
      destruct (on_exception_frame
                  (ArchiveStream.set_stats
                     (ArchiveStream.set_current_date self
                        (next_cursor (ArchiveStream.current_date self)
                           (first :: rest)))
                     (DownloadStats.set_total_items (ArchiveStream.stats self)
                        (DownloadStats.total_items (ArchiveStream.stats self)
                         + List.length (first :: rest))))
                  disk fh (ValueError "year is out of range"))
        as (Hd & Hh & _).
      rewrite Hd, Hh. split; reflexivity.
  - destruct (is_Exception e) eqn:He.
    + rewrite (iteration_exception _ _ _ _ _ Hev He). cbv zeta. turn_cbn.
      destruct (on_exception_frame self disk fh e) as (Hd & Hh & _).
      rewrite Hd, Hh. split; reflexivity.
    + rewrite (iteration_unwind _ _ _ _ _ Hev He). split; reflexivity.
Qed.

Lemma run_frame (world : list (net_event (list Item))) (q : string) :
  forall (self : ArchiveStream.t) (disk : fs) (fh : handle),
  q <> path fh ->
  ArchiveStream.run_disk (ArchiveStream._run self disk fh world) q = disk q
  /\ path (ArchiveStream.run_handle (ArchiveStream._run self disk fh world))
     = path fh.
Proof.
  induction world as [|ev world IH]; intros self disk fh Hq;
    cbn [ArchiveStream._run]; destruct (_ || _); try (split; reflexivity).
  cbv zeta. destruct (iteration_frame self disk fh ev q Hq) as [Hd Hp].
  destruct (ArchiveStream.turn_control _); run_cbn;
    try (split; assumption).
  destruct (IH (ArchiveStream.turn_self
                  (ArchiveStream.iteration self disk fh ev))
              (ArchiveStream.turn_disk
                  (ArchiveStream.iteration self disk fh ev))
              (ArchiveStream.turn_handle
                  (ArchiveStream.iteration self disk fh ev)))
    as [Hd' Hp']; [rewrite Hp; exact Hq|].
  rewrite Hd', Hp', Hd, Hp. split; reflexivity.
Qed.

Lemma start_frame (self : ArchiveStream.t) (now : Q) (disk : fs)
  (world : list (net_event (list Item))) (q : string) :
  q <> ArchiveStream.output_file self ->
  ArchiveStream.started_disk (ArchiveStream.start self now disk world) q
  = disk q.
Proof.
  intros Hq. unfold ArchiveStream.start, open_. cbv zeta.
  cbn [ArchiveStream.output_file ArchiveStream.set_stats].
  match goal with
  | |- context [ArchiveStream._run ?s ?d ?h world] =>
      destruct (run_frame world q s d h Hq) as [Hd Hp];
      set (r := ArchiveStream._run s d h world) in *
  end.
  cbn [path] in Hp.
  assert (Hclose : close (ArchiveStream.run_disk r) (ArchiveStream.run_handle r) q
                   = disk q).
  { unfold close, flush. cbn [fst]. rewrite Hp.
    rewrite (fs_set_other _ _ _ _ Hq), Hd. apply fs_set_other, Hq. }
  destruct (ArchiveStream.run_ending r) as [|e|]; [|destruct e|];
    cbn [ArchiveStream.started_disk]; try exact Hclose.
  rewrite Hd. apply fs_set_other, Hq.
Qed.

Lemma run_keeps (world : list (net_event (list Item))) :
  forall (self : ArchiveStream.t) (disk : fs) (fh : handle),
  let s' := ArchiveStream.run_self (ArchiveStream._run self disk fh world) in
  ArchiveStream.url s' = ArchiveStream.url self
  /\ ArchiveStream.output_file s' = ArchiveStream.output_file self
  /\ ArchiveStream.item_type s' = ArchiveStream.item_type self
  /\ ArchiveStream.append s' = ArchiveStream.append self
  /\ DownloadStats.start_time (ArchiveStream.stats s')
     = DownloadStats.start_time (ArchiveStream.stats self)
  /\ DownloadStats.is_paused (ArchiveStream.stats s')
     = DownloadStats.is_paused (ArchiveStream.stats self).
Proof.
  induction world as [|ev world IH]; intros self disk fh; cbv zeta;
    cbn [ArchiveStream._run]; destruct (_ || _); try (repeat split; fail).
  cbv zeta.
  pose proof (iteration_keeps self disk fh ev) as Hk. cbv zeta in Hk.
  destruct (ArchiveStream.turn_control _); run_cbn; try exact Hk.
  destruct Hk as (H1 & H2 & H3 & H4 & H5 & H6).
  rewrite <- H1, <- H2, <- H3, <- H4, <- H5, <- H6. apply IH.
Qed.

(** X9.  [start] writes to no file but the stream's own [output_file], and
    leaves the stream's address, sink, label and mode as they were. *)
Theorem start_touches_only_its_own_sink
  (self : ArchiveStream.t) (now : Q) (disk : fs)
  (world : list (net_event (list Item))) (q : string) :
  q <> ArchiveStream.output_file self ->
  let r := ArchiveStream.start self now disk world in
  ArchiveStream.started_disk r q = disk q
  /\ ArchiveStream.url (ArchiveStream.started_self r) = ArchiveStream.url self
  /\ ArchiveStream.output_file (ArchiveStream.started_self r)
     = ArchiveStream.output_file self
  /\ ArchiveStream.append (ArchiveStream.started_self r)
     = ArchiveStream.append self.
Proof.
  intros Hq. cbv zeta. split; [apply start_frame, Hq|].
  unfold ArchiveStream.start, open_. cbv zeta.
  match goal with
  | |- context [ArchiveStream._run ?s ?d ?h world] =>
      pose proof (run_keeps world s d h) as Hk; cbv zeta in Hk;
      destruct Hk as (Hu & Ho & _ & Ha & _);
      destruct (ArchiveStream.run_ending (ArchiveStream._run s d h world))
        as [|e|]; [|destruct e|]
  end;
    cbn [ArchiveStream.started_self ArchiveStream.url
         ArchiveStream.output_file ArchiveStream.append
         ArchiveStream.set_stats] in *;
    repeat split; assumption.
Qed.

Lemma start_touches_only_its_own_sink_example :
  ArchiveStream.output_file posts0 <> ArchiveStream.output_file comments0
  /\ ArchiveStream.started_disk
       (ArchiveStream.start comments0 1 old_sink
          [page_answer [item_at 4]; bare_answer])
       (ArchiveStream.output_file posts0)
     = old_sink (ArchiveStream.output_file posts0).
Proof.
  split; [discriminate|].
  apply (start_touches_only_its_own_sink comments0 1 old_sink
           [page_answer [item_at 4]; bare_answer]
           (ArchiveStream.output_file posts0)).
  discriminate.
Defined.

(** X10.  When the two streams of a coordinator write to different files,
    the comments run leaves the posts sink exactly as the posts run left
    it. *)
Theorem comments_run_keeps_the_posts_sink
  (posts comments : ArchiveStream.t) (now_posts now_comments : Q) (disk : fs)
  (world : list (net_event (list Item))) :
  ArchiveStream.output_file posts <> ArchiveStream.output_file comments ->
  CombinedArchiveStream.final_disk
    (CombinedArchiveStream.start
       (CombinedArchiveStream.mk (Some posts) (Some comments))
       now_posts now_comments disk world)
    (ArchiveStream.output_file posts)
  = ArchiveStream.started_disk (ArchiveStream.start posts now_posts disk world)
      (ArchiveStream.output_file posts).
Proof.
  intros Hdiff. unfold CombinedArchiveStream.start.
  cbn [CombinedArchiveStream.posts_stream
       CombinedArchiveStream.comments_stream]. cbv zeta.
  cbn [CombinedArchiveStream.how CombinedArchiveStream.final_disk
       CombinedArchiveStream.rest].
  destruct (ArchiveStream.started_ending
              (ArchiveStream.start posts now_posts disk world));
    cbn [CombinedArchiveStream.final_disk]; try reflexivity.
  apply start_frame, Hdiff.
Qed.

Lemma comments_run_keeps_the_posts_sink_example :
  ArchiveStream.output_file posts0 <> ArchiveStream.output_file comments0
  /\ contents
       (CombinedArchiveStream.final_disk
          (CombinedArchiveStream.start
             (CombinedArchiveStream.mk (Some posts0) (Some comments0))
             1 2 no_files
             [page_answer [item_at 4]; bare_answer;
              page_answer [item_at 5; item_at 6]; bare_answer]))
       (ArchiveStream.output_file posts0)
     = lines [item_at 4].
Proof.
  split; [discriminate|]. unfold contents.
  rewrite (comments_run_keeps_the_posts_sink posts0 comments0 1 2 no_files
             [page_answer [item_at 4]; bare_answer;
              page_answer [item_at 5; item_at 6]; bare_answer]);
    [reflexivity|discriminate].
Defined.

(** ** Reading the sink back *)

Lemma read_lines_record (x rest : string) :
  count_char newline x = 0 ->
  read_lines (x ++ String newline rest) = x :: read_lines rest.
Proof.
  induction x as [|c x IH]; cbn [String.append read_lines count_char].
  - intros _. rewrite Ascii.eqb_refl. reflexivity.
  - destruct (Ascii.eqb c newline); [discriminate|].
    intros H. rewrite (IH H). reflexivity.
Qed.

Lemma read_lines_lines (page : list Item) :
  read_lines (lines page) = map (fun it => dumps (JObj (fields it))) page.
Proof.
  induction page as [|it page IH]; cbn [lines map]; [reflexivity|].
  unfold line. rewrite append_assoc. cbn [str1 String.append].
  rewrite read_lines_record by apply dumps_one_line.
  rewrite IH. reflexivity.
Qed.

(** X11.  A sink written without [append] reads back, line by line, as the
    [json.dumps] texts of the items of the pages written (the pages fetched
    whose cursor [datetime.fromtimestamp] could date), in the order
    received: no record spills over a line end and none is split. *)
Theorem sink_reads_back_as_its_records
  (self : ArchiveStream.t) (now : Q) (disk : fs)
  (world : list (net_event (list Item))) :
  ArchiveStream.append self = false ->
  let r := ArchiveStream.start self now disk world in
  exists consumed,
    world = (consumed ++ ArchiveStream.started_rest r)%list
    /\ read_lines
         (contents (ArchiveStream.started_disk r)
            (ArchiveStream.output_file self))
       = map (fun it => dumps (JObj (fields it)))
           (List.concat
              (written_pages (ArchiveStream.current_date self) consumed)).
Proof.
  intros Happ. cbv zeta.
  destruct (start_sink self now disk world) as (consumed & Hw & Hd & _).
  exists consumed. split; [exact Hw|].
  rewrite Hd, Happ. cbn [String.append]. apply read_lines_lines.
Qed.

Lemma sink_reads_back_example :
  ArchiveStream.append posts0 = false
  /\ read_lines
       (contents
          (ArchiveStream.started_disk
             (ArchiveStream.start posts0 1 old_sink
                [page_answer [item_at 1; item_undated]; server_error;
                 page_answer [item_at 253402300800];
                 page_answer [item_at 3]]))
          (ArchiveStream.output_file posts0))
     = [dumps (JObj (fields (item_at 1)));
        dumps (JObj (fields item_undated));
        dumps (JObj (fields (item_at 3)))].
Proof.
  split; [reflexivity|].
  destruct (sink_reads_back_as_its_records posts0 1 old_sink
              [page_answer [item_at 1; item_undated]; server_error;
               page_answer [item_at 253402300800];
               page_answer [item_at 3]] eq_refl)
    as (consumed & Hw & Hr).
  cbn [ArchiveStream.started_rest] in Hw.
  assert (Hc : consumed = [page_answer [item_at 1; item_undated]; server_error;
                           page_answer [item_at 253402300800];
                           page_answer [item_at 3]]).
  { change (ArchiveStream.started_rest _) with (@nil (net_event (list Item)))
      in Hw.
    rewrite app_nil_r in Hw. symmetry. exact Hw. }
  rewrite Hr, Hc. reflexivity.
Defined.

(** ** The progress line *)

Lemma on_data_progress (self : ArchiveStream.t) (disk : fs) (fh : handle)
  (page : list Item) (st : DownloadStats.t) :
  running self = true ->
  In (PrintProgress st)
    (ArchiveStream.turn_trace (ArchiveStream.on_data self disk fh page)) ->
  1 <= DownloadStats.total_items st
  /\ (exists d, DownloadStats.current_date st = Some d)
  /\ DownloadStats.is_paused st = false
  /\ DownloadStats.has_error st = false
  /\ DownloadStats.is_done st = false
  /\ DownloadStats.start_time st
     = DownloadStats.start_time (ArchiveStream.stats self).
Proof.
  unfold running. rewrite negb_true_iff, orb_false_iff. intros [Hp Hd].
  destruct page as [|first rest].
  - rewrite on_data_empty. turn_cbn. intros [H|[]]. discriminate H.
  - destruct (fromtimestamp_ok
                (next_cursor (ArchiveStream.current_date self)
                   (first :: rest))) eqn:Hok.
    + unfold ArchiveStream.on_data. cbv zeta.
      unfold next_cursor in Hok. cbv zeta in Hok. rewrite Hok.
      destruct self as [u sd cd o it ap [ti stt rt dt c p d he]].
      cbn in Hp, Hd. subst p d.
      destruct he; cbn; intros [[= <-]|[]]; cbn;
        (split; [lia|]); (split; [eexists; reflexivity|]); repeat split.
    + rewrite (on_data_undatable self disk fh first rest Hok).
      unfold ArchiveStream.on_exception. cbv zeta.
      destruct (Qgtb _ _); turn_cbn; cbn [In]; intros H;
        repeat (destruct H as [H|H]; [discriminate H|]); destruct H.
Qed.

Lemma iteration_progress (self : ArchiveStream.t) (disk : fs) (fh : handle)
  (ev : net_event (list Item)) (st : DownloadStats.t) :
  running self = true ->
  In (PrintProgress st)
    (ArchiveStream.turn_trace (ArchiveStream.iteration self disk fh ev)) ->
  1 <= DownloadStats.total_items st
  /\ (exists d, DownloadStats.current_date st = Some d)
  /\ DownloadStats.is_paused st = false
  /\ DownloadStats.has_error st = false
  /\ DownloadStats.is_done st = false
  /\ DownloadStats.start_time st
     = DownloadStats.start_time (ArchiveStream.stats self).
Proof.
  intros Hrun. destruct (fetch_outcome ev) as [page|e] eqn:Hev.
  - rewrite (iteration_data _ _ _ _ _ Hev). cbv zeta. turn_cbn.
    intros [H|H]; [discriminate H|].
    apply (on_data_progress self disk fh page st Hrun H).
  - destruct (is_Exception e) eqn:He.
    + rewrite (iteration_exception _ _ _ _ _ Hev He). cbv zeta. turn_cbn.
      unfold ArchiveStream.on_exception. cbv zeta.
      destruct (Qgtb _ _); turn_cbn; cbn [In]; intros H;
        repeat (destruct H as [H|H]; [discriminate H|]); destruct H.
    + rewrite (iteration_unwind _ _ _ _ _ Hev He). turn_cbn.
      intros [H|[]]. discriminate H.
Qed.

Lemma run_progress (world : list (net_event (list Item)))
  (st : DownloadStats.t) :
  forall (self : ArchiveStream.t) (disk : fs) (fh : handle),
  In (PrintProgress st)
    (ArchiveStream.run_trace (ArchiveStream._run self disk fh world)) ->
  1 <= DownloadStats.total_items st
  /\ (exists d, DownloadStats.current_date st = Some d)
  /\ DownloadStats.is_paused st = false
  /\ DownloadStats.has_error st = false
  /\ DownloadStats.is_done st = false
  /\ DownloadStats.start_time st
     = DownloadStats.start_time (ArchiveStream.stats self).
Proof.
  induction world as [|ev world IH]; intros self disk fh;
    cbn [ArchiveStream._run]; destruct (_ || _) eqn:Hloop;
    try (intros []).
  cbv zeta.
  assert (Hrun : running self = true)
    by (unfold running; rewrite Hloop; reflexivity).
  pose proof (iteration_progress self disk fh ev st Hrun) as Hturn.
  pose proof (iteration_keeps self disk fh ev) as Hk. cbv zeta in Hk.
  destruct Hk as (_ & _ & _ & _ & Hst & _).
  destruct (ArchiveStream.turn_control _); run_cbn; try exact Hturn.
  intros H. apply in_app_or in H as [H|H]; [exact (Hturn H)|].
  rewrite <- Hst. exact (IH _ _ _ H).
Qed.

(** X12.  Every progress line a started stream prints is the plain one:
    it counts at least one item, names the date reached and carries none of
    the tags [PAUSED], [ERROR], [DONE], and it is never "Not started" or
    "No items downloaded yet", because the loop prints it only after a page
    with items has been written and the error flag cleared. *)
Theorem progress_lines_are_plain
  (rate_text : nat -> Q -> string) (strftime : Z -> string)
  (self : ArchiveStream.t) (now : Q) (disk : fs)
  (world : list (net_event (list Item))) (st : DownloadStats.t) :
  Qeq_bool now 0 = false ->
  In (PrintProgress st)
    (ArchiveStream.started_trace (ArchiveStream.start self now disk world)) ->
  exists d,
    DownloadStats.current_date st = Some d
    /\ 1 <= DownloadStats.total_items st
    /\ format_progress rate_text strftime st
       = (("Downloaded " ++ str_of_Z (Z.of_nat (DownloadStats.total_items st))
           ++ " items") ++ " up to " ++ strftime d)
         ++ " (" ++ rate_text (DownloadStats.total_items st) now
         ++ " items/s)".
Proof.
  intros Hnow Hin.
  assert (Hplain :
            1 <= DownloadStats.total_items st
            /\ (exists d, DownloadStats.current_date st = Some d)
            /\ DownloadStats.is_paused st = false
            /\ DownloadStats.has_error st = false
            /\ DownloadStats.is_done st = false
            /\ DownloadStats.start_time st = now).
  { revert Hin. unfold ArchiveStream.start, open_. cbv zeta.
    match goal with
    | |- context [ArchiveStream._run ?s ?d ?h world] =>
        pose proof (run_progress world st s d h) as Hrun;
        destruct (ArchiveStream.run_ending (ArchiveStream._run s d h world))
          as [|e|]; [|destruct e|]
    end;
      cbn [ArchiveStream.started_trace]; intros Hin;
      try (apply in_app_or in Hin as [Hin|[Hin|[]]]; [|discriminate Hin]);
      exact (Hrun Hin). }
  destruct Hplain as (Hitems & (d & Hd) & Hp & He & Hdn & Hst).
  exists d. split; [exact Hd|]. split; [exact Hitems|].
  unfold format_progress. rewrite Hst, Hnow, Hd, Hp, He, Hdn.
  destruct (DownloadStats.total_items st) as [|n]; [lia|]. reflexivity.
Qed.

Lemma progress_lines_example :
  Qeq_bool 1 0 = false
  /\ In (PrintProgress
           (DownloadStats.mk 2 1 0 (Some 8000%Z) 0 false false false))
       (ArchiveStream.started_trace
          (ArchiveStream.start posts0 1 no_files
             [server_error; page_answer [item_at 7; item_at 8]]))
  /\ format_progress (fun _ _ => "2.00") (fun _ => "1970-01-01 00:00:08")
       (DownloadStats.mk 2 1 0 (Some 8000%Z) 0 false false false)
     = "Downloaded 2 items up to 1970-01-01 00:00:08 (2.00 items/s)".
Proof.
  split; [reflexivity|].
  assert (Hin : In (PrintProgress
                      (DownloadStats.mk 2 1 0 (Some 8000%Z) 0 false false false))
                  (ArchiveStream.started_trace
                     (ArchiveStream.start posts0 1 no_files
                        [server_error; page_answer [item_at 7; item_at 8]]))).
  { vm_compute. do 5 right. left. reflexivity. }
  split; [exact Hin|].
  destruct (progress_lines_are_plain
              (fun _ _ => "2.00") (fun _ => "1970-01-01 00:00:08")
              posts0 1 no_files
              [server_error; page_answer [item_at 7; item_at 8]]
              (DownloadStats.mk 2 1 0 (Some 8000%Z) 0 false false false)
              eq_refl Hin) as (d & Hd & _ & Hf).
  rewrite Hf. reflexivity.
Defined.

(** ** [validate_name] *)

(** X13.  When [validate_name] returns, the name has two characters or
    more, both requests were made, in order, and both were answered with
    status 200; the timestamp is that of the date text of the first answer
    with every [Z] rewritten, and the info is the first entry of the
    [data] of the second answer, or the empty [dict] when that answer has
    no [data] member. *)
Theorem validate_name_returns_only_after_two_clean_answers
  (iso_to_ms : string -> option Z) (name : string)
  (download_type : DownloadType)
  (min_answer : net_event json) (info_answer : net_event (list Dict))
  (tr : list effect) (date_timestamp : Z) (info : Dict) :
  validate_name iso_to_ms name download_type min_answer info_answer
  = (tr, Ok (date_timestamp, info)) ->
  2 <= String.length name
  /\ tr = [Get (min_url name download_type);
           Get (info_url name download_type)]
  /\ exists r1 b1 text r2 b2,
       min_answer = Answer r1 /\ status_code r1 = 200%Z
       /\ json_body r1 = Some b1 /\ data b1 = Some (JStr text)
       /\ iso_to_ms (replace_Z text) = Some date_timestamp
       /\ info_answer = Answer r2 /\ status_code r2 = 200%Z
       /\ json_body r2 = Some b2
       /\ hd_error (match data b2 with Some l => l | None => [[]] end)
          = Some info.
Proof.
  unfold validate_name.
  destruct (Nat.ltb_spec (String.length name) 2) as [Hlen|Hlen];
    [discriminate|].
  destruct min_answer as [r1|e1]; [|discriminate].
  destruct (Z.eqb_spec (status_code r1) 200) as [Hs1|Hs1];
    cbn [negb]; [|discriminate].
  destruct (json_body r1) as [b1|] eqn:Hb1; [|discriminate].
  destruct (match error b1 with Some err => truthy err | None => false end);
    [discriminate|].
  destruct (data b1) as [earliest|] eqn:Hd1; [|discriminate].
  destruct info_answer as [r2|e2];
    [|destruct earliest; discriminate].
  destruct (Z.eqb_spec (status_code r2) 200) as [Hs2|Hs2];
    cbn [negb]; [|destruct earliest; discriminate].
  destruct (json_body r2) as [b2|] eqn:Hb2;
    [|destruct earliest; discriminate].
  destruct (match data b2 with Some l => l | None => [[]] end)
    as [|info0 others] eqn:Hinfo; [destruct earliest; discriminate|].
  destruct earliest as [ |b|n|text|l|o]; try discriminate.
  destruct (iso_to_ms (replace_Z text)) as [ms|] eqn:Hms; [|discriminate].
  intros [= <- <- <-].
  split; [exact Hlen|]. split; [reflexivity|].
  exists r1, b1, text, r2, b2. repeat split; try assumption.
  rewrite Hinfo. reflexivity.
Qed.

Lemma validate_name_returns_example :
  validate_name (fun _ => Some 1201219200000%Z) "ml" SUBREDDIT
    found_answer
    (Answer (mkResponse 200 "{}" (Some (mkBody None None))))
  = ([Get (min_url "ml" SUBREDDIT); Get (info_url "ml" SUBREDDIT)],
     Ok (1201219200000%Z, []))
  /\ 2 <= String.length "ml".
Proof.
  split; [reflexivity|].
  apply (validate_name_returns_only_after_two_clean_answers
           (fun _ => Some 1201219200000%Z) "ml" SUBREDDIT found_answer
           (Answer (mkResponse 200 "{}" (Some (mkBody None None))))
           [Get (min_url "ml" SUBREDDIT); Get (info_url "ml" SUBREDDIT)]
           1201219200000%Z []).
  reflexivity.
Defined.

(** X14.  A name the API knows no date for is refused after one request:
    when the first answer is a clean 200 whose [data] is missing or
    [null], [validate_name] raises "No ... with that name found" and the
    info end point is never asked, whatever it would have answered. *)
Theorem unknown_name_is_refused_after_one_request
  (iso_to_ms : string -> option Z) (name : string)
  (download_type : DownloadType) (response : Response json) (body : Body json)
  (info_answer : net_event (list Dict)) :
  2 <= String.length name ->
  status_code response = 200%Z ->
  json_body response = Some body ->
  error body = None ->
  data body = None \/ data body = Some JNull ->
  validate_name iso_to_ms name download_type (Answer response) info_answer
  = ([Get (min_url name download_type)],
     Raise (Exception (NoSuchName (value download_type)))).
Proof.
  intros Hlen Hs Hb He Hd. unfold validate_name.
  destruct (Nat.ltb_spec (String.length name) 2) as [Hlt|_]; [lia|].
  rewrite Hs, Hb, He. cbn [Z.eqb Pos.eqb negb].
  destruct Hd as [-> | ->]; reflexivity.
Qed.

Lemma unknown_name_example :
  2 <= String.length "zz"
  /\ validate_name (fun _ => None) "zz" USER
       (Answer (mkResponse 200 "{...}" (Some (mkBody None (Some JNull)))))
       (info_answer_with [])
     = ([Get (min_url "zz" USER)], Raise (Exception (NoSuchName "author"))).
Proof.
  split; [repeat constructor|].
  apply (unknown_name_is_refused_after_one_request (fun _ => None) "zz" USER
           (mkResponse 200 "{...}" (Some (mkBody None (Some JNull))))
           (mkBody None (Some JNull)) (info_answer_with []));
    [repeat constructor|reflexivity|reflexivity|reflexivity|right; reflexivity].
Defined.

(** ** [main] *)

Lemma combined_how (c : CombinedArchiveStream.t) (now_posts now_comments : Q)
  (disk : fs) (world : list (net_event (list Item))) :
  CombinedArchiveStream.how
    (CombinedArchiveStream.start c now_posts now_comments disk world)
  = Returned
  \/ CombinedArchiveStream.how
       (CombinedArchiveStream.start c now_posts now_comments disk world)
     = Awaiting.
Proof.
  unfold CombinedArchiveStream.start. cbv zeta.
  destruct (CombinedArchiveStream.posts_stream c) as [p|];
    cbn [CombinedArchiveStream.how CombinedArchiveStream.final_disk
         CombinedArchiveStream.rest].
  - destruct (start_ending p now_posts disk world) as [-> | ->];
      [|right; reflexivity].
    destruct (CombinedArchiveStream.comments_stream c) as [q|];
      cbn [CombinedArchiveStream.how]; [apply start_ending|left; reflexivity].
  - destruct (CombinedArchiveStream.comments_stream c) as [q|];
      cbn [CombinedArchiveStream.how]; [apply start_ending|left; reflexivity].
Qed.

(** X16.  [main] returns 0 exactly when the coordinator was started and
    returned; the error flags of the streams play no part, so a run whose
    streams gave up after repeated errors still exits with 0. *)
Theorem exit_code_0_exactly_when_the_coordinator_returned
  (iso_to_ms : string -> option Z) (ratio_text : Z -> Z -> string)
  (strptime_ms : string -> option Z) (midnight_ms : Z -> Z)
  (args : Main.Args)
  (min_answer : net_event json) (info_answer : net_event (list Dict))
  (now_posts now_comments : Q) (disk : fs)
  (world : list (net_event (list Item))) :
  let r := Main.main iso_to_ms ratio_text strptime_ms midnight_ms args
             min_answer info_answer now_posts now_comments disk world in
  Main.how r = Main.Exit 0
  <-> exists c, Main.ran r = Some c /\ CombinedArchiveStream.how c = Returned.
Proof.
  cbv zeta. unfold Main.main.
  destruct (validate_name _ _ _ _ _) as [tr [[ts info]|e]].
  - destruct (Main.show_counts ratio_text info) as [shown [err|]].
    { unfold Main.failed. cbn. split; [discriminate|].
      intros (c & H & _). discriminate H. }
    destruct (match Main.given_text (Main.start_date args) with
              | Some text => _
              | None => _
              end) as [start_ts|e1].
    + destruct (match Main.given_text (Main.end_date args) with
                | Some text => _
                | None => _
                end) as [end_ts|e2].
      * cbv zeta.
        match goal with
        | |- context [CombinedArchiveStream.start ?c now_posts now_comments
                        disk world] =>
            set (r := CombinedArchiveStream.start c now_posts now_comments
                        disk world);
            destruct (combined_how c now_posts now_comments disk world)
              as [H | H]; fold r in H; rewrite H
        end.
        -- cbn. split; [intros _; exists r; split; [reflexivity|exact H]|
                        reflexivity].
        -- cbn. split; [discriminate|].
           intros (c & [= <-] & Hc). rewrite H in Hc. discriminate Hc.
      * unfold Main.failed. cbn. split; [discriminate|].
        intros (c & H & _). discriminate H.
    + unfold Main.failed. cbn. split; [discriminate|].
      intros (c & H & _). discriminate H.
  - destruct (is_Exception e); unfold Main.failed; cbn;
      (split; [discriminate|]); intros (c & H & _); discriminate H.
Qed.

Lemma exit_code_0_after_both_streams_gave_up :
  let r := Main.main (fun _ => Some 0%Z) (fun _ _ => "0.0") (fun _ => None)
             (fun z => z) (plain_args "rocq") found_answer
             (info_answer_with []) 1 2 no_files
             (repeat server_error 22) in
  Main.how r = Main.Exit 0
  /\ option_map
       (fun c =>
          (option_map (fun s => DownloadStats.has_error (ArchiveStream.stats s))
             (CombinedArchiveStream.posts_after c),
           option_map (fun s => DownloadStats.has_error (ArchiveStream.stats s))
             (CombinedArchiveStream.comments_after c)))
       (Main.ran r)
     = Some (Some true, Some true).
Proof.
  cbv zeta. split; [|vm_compute; reflexivity].
  apply (exit_code_0_exactly_when_the_coordinator_returned
           (fun _ => Some 0%Z) (fun _ _ => "0.0") (fun _ => None) (fun z => z)
           (plain_args "rocq") found_answer (info_answer_with []) 1 2 no_files
           (repeat server_error 22)).
  eexists. split; vm_compute; reflexivity.
Defined.

Lemma path_join_relative (a : string) (c : ascii) :
  c <> "/"%char ->
  exists pre, forall t, Main.path_join a (String c t) = pre ++ String c t.
Proof.
  intros Hc.
  assert (Hb : forall t, Main.path_join a (String c t)
                         = match a with
                           | EmptyString => String c t
                           | _ =>
                               if String.eqb
                                    (substring (String.length a - 1) 1 a) "/"
                               then a ++ String c t
                               else a ++ "/" ++ String c t
                           end).
  { intros t. unfold Main.path_join.
    destruct c as [[|] [|] [|] [|] [|] [|] [|] [|]];
      try reflexivity. contradiction Hc. reflexivity. }
  exists (match a with
          | EmptyString => EmptyString
          | _ =>
              if String.eqb (substring (String.length a - 1) 1 a) "/"
              then a
              else a ++ "/"
          end).
  intros t. rewrite Hb. destruct a as [|a0 a']; [reflexivity|].
  destruct (String.eqb _ _); [reflexivity|].
  rewrite append_assoc. reflexivity.
Qed.

(** X17.  [main] always builds at least one stream, and both when neither
    or both of [--posts] and [--comments] are given; when it builds both
    they write to
    different files, start from the same cursor and share the [--append]
    setting. *)
Theorem main_streams_never_share_a_sink
  (args : Main.Args) (download_type : DownloadType) (start_timestamp : Z)
  (end_timestamp : option Z) :
  let c := Main.make_streams args download_type start_timestamp
             end_timestamp in
  (CombinedArchiveStream.posts_stream c <> None
   \/ CombinedArchiveStream.comments_stream c <> None)
  /\ (Main.posts args = Main.comments args ->
      CombinedArchiveStream.posts_stream c <> None
      /\ CombinedArchiveStream.comments_stream c <> None)
  /\ forall p q,
       CombinedArchiveStream.posts_stream c = Some p ->
       CombinedArchiveStream.comments_stream c = Some q ->
       ArchiveStream.output_file p <> ArchiveStream.output_file q
       /\ ArchiveStream.current_date p = start_timestamp
       /\ ArchiveStream.current_date q = start_timestamp
       /\ ArchiveStream.append p = Main.append args
       /\ ArchiveStream.append q = Main.append args.
Proof.
  cbv zeta. unfold Main.make_streams. cbv zeta.
  cbn [CombinedArchiveStream.posts_stream CombinedArchiveStream.comments_stream].
  split; [|split].
  - destruct (Main.posts args), (Main.comments args); cbn;
      (left; discriminate) || (right; discriminate).
  - intros Heq. rewrite Heq.
    destruct (Main.comments args); cbn; split; discriminate.
  - intros p q Hp Hq.
    destruct (if negb (Main.posts args) && negb (Main.comments args)
              then true else Main.posts args); [|discriminate].
    destruct (if negb (Main.posts args) && negb (Main.comments args)
              then true else Main.comments args); [|discriminate].
    injection Hp as <-. injection Hq as <-.
    unfold ArchiveStream.init.
    cbn [ArchiveStream.output_file ArchiveStream.current_date
         ArchiveStream.append].
    split; [|repeat split].
    set (prefix := (match download_type with
                    | SUBREDDIT => "r_"
                    | USER => "u_"
                    end) ++ Main.name args).
    assert (Hrel : exists c0 rest0, c0 <> "/"%char
                                    /\ prefix = String c0 rest0).
    { unfold prefix. destruct download_type; cbn [String.append];
        eexists _, _; (split; [|reflexivity]); discriminate. }
    destruct Hrel as (c0 & rest0 & Hc0 & Hprefix).
    rewrite Hprefix. cbn [String.append].
    destruct (path_join_relative (Main.output_dir args) c0 Hc0) as (pre' & Hj).
    rewrite !Hj. intros H.
    apply append_inv_head in H. injection H as H.
    apply append_inv_head in H. discriminate H.
Qed.

(** X18.  An end date whose timestamp is 0 counts as no end date: [main]
    tests the timestamp for truth, so it prints "End date: Now", sends no
    [before] bound and behaves in every respect as if [--end-date] had not
    been given. *)
Theorem end_date_at_the_epoch_is_no_end_date
  (iso_to_ms : string -> option Z) (ratio_text : Z -> Z -> string)
  (strptime_ms : string -> option Z) (midnight_ms : Z -> Z)
  (name type_ output_dir : string) (posts comments append : bool)
  (start_date : option string) (text : string)
  (min_answer : net_event json) (info_answer : net_event (list Dict))
  (now_posts now_comments : Q) (disk : fs)
  (world : list (net_event (list Item))) :
  strptime_ms text = Some 0%Z ->
  Main.main iso_to_ms ratio_text strptime_ms midnight_ms
    (Main.mkArgs name type_ posts comments output_dir start_date (Some text)
       append)
    min_answer info_answer now_posts now_comments disk world
  = Main.main iso_to_ms ratio_text strptime_ms midnight_ms
      (Main.mkArgs name type_ posts comments output_dir start_date None append)
      min_answer info_answer now_posts now_comments disk world.
Proof.
  intros Hzero. unfold Main.main.
  cbn [Main.name Main.type_ Main.start_date Main.end_date Main.output_dir].
  destruct (validate_name _ _ _ _ _) as [tr [[ts info]|e]]; [|reflexivity].
  destruct (Main.show_counts ratio_text info) as [shown [err|]];
    [reflexivity|].
  destruct (match Main.given_text start_date with
            | Some t => _
            | None => _
            end) as [start_ts|e1]; [|reflexivity].
  unfold Main.given_text at 1.
  destruct (String.eqb text EmptyString); [reflexivity|].
  rewrite Hzero. reflexivity.
Qed.

Lemma end_date_at_the_epoch_example :
  (fun s : string => if String.eqb s "1970-01-01" then Some 0%Z else None)
    "1970-01-01" = Some 0%Z
  /\ requests
       (flat_map (fun o => match o with Main.Eff e => [e] | _ => [] end)
          (Main.out
             (Main.main (fun _ => Some 0%Z) (fun _ _ => "0.0")
                (fun s => if String.eqb s "1970-01-01" then Some 0%Z else None)
                (fun z => z)
                (Main.mkArgs "rocq" "subreddit" true false "out" None
                   (Some "1970-01-01") false)
                found_answer (info_answer_with []) 1 2 no_files [bare_answer])))
     = [min_url "rocq" SUBREDDIT; info_url "rocq" SUBREDDIT;
        API_URL ++ "/api/posts/search?subreddit=rocq"
        ++ "&limit=auto&sort=asc&after=0&meta-app=download-tool-cli"].
Proof.
  split; [reflexivity|].
  rewrite (end_date_at_the_epoch_is_no_end_date
             (fun _ => Some 0%Z) (fun _ _ => "0.0")
             (fun s => if String.eqb s "1970-01-01" then Some 0%Z else None)
             (fun z => z) "rocq" "subreddit" "out" true false false None
             "1970-01-01" found_answer (info_answer_with []) 1 2 no_files
             [bare_answer] eq_refl).
  reflexivity.
Defined.

(** An empty [--start-date] or [--end-date] text is no date either: it is
    never parsed, and [main] behaves as if the option had been left out. *)
Lemma empty_date_texts_are_ignored
  (iso_to_ms : string -> option Z) (ratio_text : Z -> Z -> string)
  (strptime_ms : string -> option Z) (midnight_ms : Z -> Z)
  (name type_ output_dir : string) (posts comments append : bool)
  (min_answer : net_event json) (info_answer : net_event (list Dict))
  (now_posts now_comments : Q) (disk : fs)
  (world : list (net_event (list Item))) :
  Main.main iso_to_ms ratio_text strptime_ms midnight_ms
    (Main.mkArgs name type_ posts comments output_dir (Some EmptyString)
       (Some EmptyString) append)
    min_answer info_answer now_posts now_comments disk world
  = Main.main iso_to_ms ratio_text strptime_ms midnight_ms
      (Main.mkArgs name type_ posts comments output_dir None None append)
      min_answer info_answer now_posts now_comments disk world.
Proof.
  unfold Main.main.
  cbn [Main.name Main.type_ Main.start_date Main.end_date Main.output_dir
       Main.given_text String.eqb].
  reflexivity.
Qed.
